(** * Spring inspection reports: the report-assembly core of [app.py]

    A shallow embedding of the business logic of the spring management
    application ([get_spring_counts], [build_default_inspection_rows],
    [normalize_sig_date], the bogie partition loop, [clean_inspections] and
    the story built by [generate_inspection_pdf]) together with the
    properties its specification states about them, followed by the code
    around it (the Generate Report handler, the Add Failure and edit forms,
    the View Failures filters, the combobox options and the credentials
    lookup) with properties read off the source.

    Conventions of the embedding.
    - Python [str] values are [string]s over 7-bit ASCII; case mapping and
      whitespace are the ASCII ones (code points above 127 are outside the
      model).
    - A Python [dict] is an association list in insertion order; assignment
      to an existing key keeps its position, assignment to a new key appends.
    - An exception is an explicit [Raise] result. *)

From Stdlib Require Import String Ascii List ZArith Bool Arith Lia.
From Stdlib Require Import DecimalString OrdersEx Sorted RelationClasses.
Import ListNotations.
Local Open Scope string_scope.
Local Open Scope list_scope.

Set Implicit Arguments.

(* ================================================================== *)
(** ** Python primitives *)
(* ================================================================== *)

Module Py.

(** [str.isspace] on ASCII: TAB, LF, VT, FF, CR, FS, GS, RS, US, SPACE. *)
Definition isspace (c : ascii) : bool :=
  let n := nat_of_ascii c in
  (((9 <=? n) && (n <=? 13)) || ((28 <=? n) && (n <=? 32)))%nat.

Fixpoint lstrip (s : string) : string :=
  match s with
  | EmptyString => EmptyString
  | String c s' => if isspace c then lstrip s' else s
  end.

Fixpoint rstrip (s : string) : string :=
  match s with
  | EmptyString => EmptyString
  | String c s' =>
      match rstrip s' with
      | EmptyString => if isspace c then EmptyString else String c EmptyString
      | r => String c r
      end
  end.

(** [s.strip()] *)
Definition strip (s : string) : string := rstrip (lstrip s).

Definition upper_char (c : ascii) : ascii :=
  let n := nat_of_ascii c in
  if ((97 <=? n) && (n <=? 122))%nat then ascii_of_nat (n - 32) else c.

Definition lower_char (c : ascii) : ascii :=
  let n := nat_of_ascii c in
  if ((65 <=? n) && (n <=? 90))%nat then ascii_of_nat (n + 32) else c.

Fixpoint map_chars (f : ascii -> ascii) (s : string) : string :=
  match s with
  | EmptyString => EmptyString
  | String c s' => String (f c) (map_chars f s')
  end.

(** [s.upper()] and [s.lower()] *)
Definition upper : string -> string := map_chars upper_char.
Definition lower : string -> string := map_chars lower_char.

(** [s.replace(" ", "")] *)
Fixpoint remove_spaces (s : string) : string :=
  match s with
  | EmptyString => EmptyString
  | String c s' =>
      if Ascii.eqb c " "%char then remove_spaces s' else String c (remove_spaces s')
  end.

(** [sub in s] for two strings *)
Fixpoint contains (sub s : string) : bool :=
  prefix sub s ||
  match s with
  | EmptyString => false
  | String _ s' => contains sub s'
  end.

(** [s[:n]] *)
Fixpoint take (n : nat) (s : string) : string :=
  match n, s with
  | S n', String c s' => String c (take n' s')
  | _, _ => EmptyString
  end.

(** [x in xs] for a string and a list of strings *)
Definition in_list (x : string) (xs : list string) : bool :=
  existsb (String.eqb x) xs.

(** [str(n)] for integers *)
Definition str_of_Z (z : Z) : string := NilZero.string_of_int (Z.to_int z).
Definition str_of_nat (n : nat) : string := str_of_Z (Z.of_nat n).

(** The scalar values that travel through rows and records. *)
Inductive pyval : Type :=
| PNone
| PInt (z : Z)
| PStr (s : string).

Definition pyval_eqb (a b : pyval) : bool :=
  match a, b with
  | PNone, PNone => true
  | PInt x, PInt y => Z.eqb x y
  | PStr x, PStr y => String.eqb x y
  | _, _ => false
  end.

(** [str(v)] *)
Definition str (v : pyval) : string :=
  match v with
  | PNone => "None"
  | PInt z => str_of_Z z
  | PStr s => s
  end.

(** Truth value of [v] in a condition or under [or]. *)
Definition truthy (v : pyval) : bool :=
  match v with
  | PNone => false
  | PInt z => negb (Z.eqb z 0)
  | PStr s => negb (String.eqb s EmptyString)
  end.

(** [a or b] *)
Definition por (a b : pyval) : pyval := if truthy a then a else b.

(** Exceptions and fallible results. *)
Inductive exc : Type := TypeError | ValueError | LibraryError.

Inductive result (A : Type) : Type :=
| Ok (a : A)
| Raise (e : exc).
Arguments Ok {A} a.
Arguments Raise {A} e.

Definition bind {A B : Type} (m : result A) (k : A -> result B) : result B :=
  match m with
  | Ok a => k a
  | Raise e => Raise e
  end.

(** [try: m  except Exception: h] *)
Definition try_except {A : Type} (m : result A) (h : A) : A :=
  match m with
  | Ok a => a
  | Raise _ => h
  end.

End Py.

Import Py.

Notation "x <- m ;; k" := (Py.bind m (fun x => k))
  (at level 61, m at next level, right associativity).

(* ================================================================== *)
(** ** Insertion-ordered dictionaries with string keys *)
(* ================================================================== *)

Definition dict (V : Type) : Type := list (string * V).

Section Dict.
Variable V : Type.

(** [d.get(k)] *)
Fixpoint dict_get (k : string) (d : dict V) : option V :=
  match d with
  | [] => None
  | (k', v) :: d' => if String.eqb k k' then Some v else dict_get k d'
  end.

(** [k in d] *)
Definition dict_mem (k : string) (d : dict V) : bool :=
  match dict_get k d with Some _ => true | None => false end.

(** [d[k] = v] *)
Fixpoint dict_set (k : string) (v : V) (d : dict V) : dict V :=
  match d with
  | [] => [(k, v)]
  | (k', v') :: d' =>
      if String.eqb k k' then (k', v) :: d' else (k', v') :: dict_set k v d'
  end.

(** [d.keys()] *)
Definition dict_keys (d : dict V) : list string := map fst d.

(** [d.get(k, dflt)] *)
Definition dict_get_default (k : string) (dflt : V) (d : dict V) : V :=
  match dict_get k d with Some v => v | None => dflt end.

End Dict.

(* ================================================================== *)
(** ** Spring configuration: [get_spring_counts] *)
(* ================================================================== *)

(** A column of a master-table row: the key may be missing from the row,
    hold a JSON null, or hold a value. *)
Inductive field (A : Type) : Type :=
| Absent
| Null
| Val (a : A).
Arguments Absent {A}.
Arguments Null {A}.
Arguments Val {A} a.

(** One row of the [spring_types] master table. *)
Record st_item : Type := {
  coach_types : field (list string);
  spring_type : field string;
  max_per_bogie : field Z
}.

(** [st_item.get("coach_types") or []] *)
Definition coach_types_or_empty (it : st_item) : list string :=
  match coach_types it with
  | Val l => l
  | _ => []
  end.

(** [str(st_item.get("spring_type", ""))] *)
Definition spring_name_of (it : st_item) : string :=
  match spring_type it with
  | Absent => EmptyString
  | Null => "None"
  | Val s => s
  end.

(** [int(st_item.get("max_per_bogie", 4))]; [int(None)] is a [TypeError]. *)
Definition max_per_bogie_int (it : st_item) : result Z :=
  match max_per_bogie it with
  | Absent => Ok 4%Z
  | Null => Raise TypeError
  | Val z => Ok z
  end.

(** [str(secondary_type).strip().upper() if secondary_type else ""] *)
Definition secondary_type_normalized (secondary_type : option string) : string :=
  match secondary_type with
  | None => EmptyString
  | Some s => if truthy (PStr s) then upper (strip s) else EmptyString
  end.

(** [coach_type in coach_types] *)
Definition applicable (coach_type : string) (it : st_item) : bool :=
  in_list coach_type (coach_types_or_empty it).

(** One iteration of the loop over [spring_types]. *)
Definition spring_step (coach_type norm : string) (counts : dict Z) (it : st_item)
  : result (dict Z) :=
  if applicable coach_type it then
    let spring_name := spring_name_of it in
    if contains "AIR" norm && contains "secondary" (lower spring_name) then
      Ok counts
    else
      n <- max_per_bogie_int it ;;
      Ok (dict_set spring_name n counts)
  else Ok counts.

Fixpoint spring_loop (coach_type norm : string) (spring_types : list st_item)
  (counts : dict Z) : result (dict Z) :=
  match spring_types with
  | [] => Ok counts
  | it :: rest =>
      counts' <- spring_step coach_type norm counts it ;;
      spring_loop coach_type norm rest counts'
  end.

Definition secondary_names : list string := ["Secondary Outer"; "Secondary Inner"].

(** The [for sec_name in [...]: if sec_name not in counts: counts[sec_name] = 2] loop. *)
Definition coil_defaults (counts : dict Z) : dict Z :=
  fold_left
    (fun c sec_name => if dict_mem sec_name c then c else dict_set sec_name 2%Z c)
    secondary_names counts.

Definition get_spring_counts (coach_type : string) (secondary_type : option string)
  (spring_types : list st_item) : result (dict Z) :=
  let norm := secondary_type_normalized secondary_type in
  counts <- spring_loop coach_type norm spring_types [] ;;
  Ok (if contains "COIL" norm then coil_defaults counts else counts).


(* ================================================================== *)
(** ** Checklist rows: [build_default_inspection_rows] *)
(* ================================================================== *)

(** [stype.lower().replace(" ", "")]: the lookup key of a spring position. *)
Definition position_key (stype : string) : string := remove_spaces (lower stype).

(** The three fields every checklist row starts with. *)
Definition row_fields : list string := ["activity_id"; "activity"; "remarks"].

(** The body of the loop over [activities]: the row literal, then one
    assignment [r[key] = default_value] per spring position. *)
Definition build_row (spring_counts : dict Z) (default_value : string)
  (act : dict pyval) : dict pyval :=
  let r := [("activity_id", dict_get_default "id" PNone act);
            ("activity", dict_get_default "activity_text" (PStr EmptyString) act);
            ("remarks", PStr EmptyString)] in
  fold_left
    (fun r stype => dict_set (position_key stype) (PStr default_value) r)
    (dict_keys spring_counts) r.

Definition build_default_inspection_rows (activities : list (dict pyval))
  (spring_counts : dict Z) (default_value : string) : list (dict pyval) :=
  fold_left
    (fun rows act => rows ++ [build_row spring_counts default_value act])
    activities [].

(* ================================================================== *)
(** ** Signature dates: [normalize_sig_date] *)
(* ================================================================== *)

Section SigDate.

(** [datetime.fromisoformat], [datetime.date], [date.isoformat] and
    [datetime.isoformat] belong to the interpreter's library: the function
    is embedded over any implementation of them.  A rejected text is a
    [Raise]. *)
Variables datetime date : Type.
Variable fromisoformat : string -> result datetime.
Variable to_date : datetime -> date.
Variable date_isoformat : date -> string.
Variable datetime_isoformat : datetime -> string.

Definition normalize_sig_date (text : option string) : option string :=
  match text with
  | None => None
  | Some s =>
      let t := strip s in
      if String.eqb t EmptyString then None
      else
        try_except
          (if Nat.eqb (String.length t) 10 then
             d <- fromisoformat t ;;
             Ok (Some (date_isoformat (to_date d)))
           else
             parsed <- fromisoformat t ;;
             Ok (Some (datetime_isoformat parsed)))
          (Some t)
  end.

End SigDate.

(** A reference implementation of the library calls on three layouts:
    [YYYY-MM-DD], the compact [YYYYMMDD] that CPython accepts from 3.11 on,
    and [YYYY-MM-DD?HH:MM:SS] with any separator character.  The interpreter
    accepts further layouts; it serves the worked examples only. *)
Module IsoFormat.

Record date : Type := { year : nat; month : nat; day : nat }.

Record datetime : Type := {
  on : date;
  hour : nat;
  minute : nat;
  second : nat
}.

Definition digit (c : ascii) : option nat :=
  let n := nat_of_ascii c in
  if ((48 <=? n) && (n <=? 57))%nat then Some (n - 48) else None.

Fixpoint number_from (acc : nat) (s : string) : option nat :=
  match s with
  | EmptyString => Some acc
  | String c s' =>
      match digit c with
      | Some d => number_from (10 * acc + d) s'
      | None => None
      end
  end.

Definition number (s : string) : result nat :=
  match s with
  | EmptyString => Raise ValueError
  | _ => match number_from 0 s with Some n => Ok n | None => Raise ValueError end
  end.

Definition is_leap (y : nat) : bool :=
  ((y mod 4 =? 0) && (negb (y mod 100 =? 0) || (y mod 400 =? 0)))%nat.

Definition days_in_month (y m : nat) : nat :=
  match m with
  | 2 => if is_leap y then 29 else 28
  | 4 | 6 | 9 | 11 => 30
  | _ => 31
  end.

(** [date(y, m, d)]; a year read from four digits never exceeds [MAXYEAR]. *)
Definition make_date (y m d : nat) : result date :=
  if ((1 <=? y) && (1 <=? m) && (m <=? 12)
      && (1 <=? d) && (d <=? days_in_month y m))%nat
  then Ok {| year := y; month := m; day := d |}
  else Raise ValueError.

Definition make_datetime (dt : date) (h mi s : nat) : result datetime :=
  if ((h <=? 23) && (mi <=? 59) && (s <=? 59))%nat
  then Ok {| on := dt; hour := h; minute := mi; second := s |}
  else Raise ValueError.

Definition expect (c : ascii) (i : nat) (s : string) : result unit :=
  match String.get i s with
  | Some c' => if Ascii.eqb c c' then Ok tt else Raise ValueError
  | None => Raise ValueError
  end.

Definition parse_extended_date (s : string) : result date :=
  y <- number (substring 0 4 s) ;;
  _ <- expect "-" 4 s ;;
  m <- number (substring 5 2 s) ;;
  _ <- expect "-" 7 s ;;
  d <- number (substring 8 2 s) ;;
  make_date y m d.

Definition parse_compact_date (s : string) : result date :=
  y <- number (substring 0 4 s) ;;
  m <- number (substring 4 2 s) ;;
  d <- number (substring 6 2 s) ;;
  make_date y m d.

Definition parse_time (dt : date) (s : string) : result datetime :=
  h <- number (substring 0 2 s) ;;
  _ <- expect ":" 2 s ;;
  mi <- number (substring 3 2 s) ;;
  _ <- expect ":" 5 s ;;
  sec <- number (substring 6 2 s) ;;
  make_datetime dt h mi sec.

Definition fromisoformat (s : string) : result datetime :=
  match String.length s with
  | 8 => dt <- parse_compact_date s ;; make_datetime dt 0 0 0
  | 10 => dt <- parse_extended_date s ;; make_datetime dt 0 0 0
  | 19 => dt <- parse_extended_date (substring 0 10 s) ;;
          parse_time dt (substring 11 8 s)
  | _ => Raise ValueError
  end.

Fixpoint zeros (n : nat) : string :=
  match n with
  | O => EmptyString
  | S n' => String "0" (zeros n')
  end.

(** [f"{n:0{width}d}"] *)
Definition pad (width n : nat) : string :=
  let s := str_of_nat n in
  zeros (width - String.length s) ++ s.

Definition date_isoformat (d : date) : string :=
  pad 4 (year d) ++ "-" ++ pad 2 (month d) ++ "-" ++ pad 2 (day d).

Definition datetime_isoformat (dt : datetime) : string :=
  date_isoformat (on dt) ++ "T" ++ pad 2 (hour dt) ++ ":" ++ pad 2 (minute dt)
    ++ ":" ++ pad 2 (second dt).

(** [normalize_sig_date] over the reference implementation. *)
Definition normalize : option string -> option string :=
  normalize_sig_date fromisoformat on date_isoformat datetime_isoformat.

End IsoFormat.

(* ================================================================== *)
(** ** Defects by bogie: the partition loop of the report handler *)
(* ================================================================== *)

(** A row of [coach_failures].  The columns read with [row[...]] are always
    there; those read with [row.get(..., default)] may be missing ([None]). *)
Record failure_row : Type := {
  type_of_spring : pyval;
  location_in_bogie : option pyval;
  type_of_failure : pyval;
  location : pyval;
  bogie_number : option pyval
}.

Definition or_default (dflt : pyval) (o : option pyval) : pyval :=
  match o with Some v => v | None => dflt end.

(** The [defect = {...}] literal. *)
Definition make_defect (row : failure_row) : dict pyval :=
  [("springType", type_of_spring row);
   ("springNumber", PStr (str (or_default (PStr EmptyString) (location_in_bogie row))));
   ("defectType", type_of_failure row);
   ("location", location row)].

(** [str(row.get('bogie_number', '1')).strip()] *)
Definition bogie_num (row : failure_row) : string :=
  strip (str (or_default (PStr "1") (bogie_number row))).

(** [bogie_num == '2'] *)
Definition to_bogie2 (row : failure_row) : bool := String.eqb (bogie_num row) "2".

Definition partition_step (acc : list (dict pyval) * list (dict pyval))
  (row : failure_row) : list (dict pyval) * list (dict pyval) :=
  let (bogie1_defects, bogie2_defects) := acc in
  if to_bogie2 row
  then (bogie1_defects, bogie2_defects ++ [make_defect row])
  else (bogie1_defects ++ [make_defect row], bogie2_defects).

(** The loop [for _, row in coach_failures.iterrows()], returning
    [(bogie1_defects, bogie2_defects)]. *)
Definition partition_defects (coach_failures : list failure_row)
  : list (dict pyval) * list (dict pyval) :=
  fold_left partition_step coach_failures ([], []).

(* ================================================================== *)
(** ** Finalising edited checklists: [clean_inspections] *)
(* ================================================================== *)

(** One cell under [fillna("")]: a missing value becomes the empty string. *)
Definition fillna_empty (v : pyval) : pyval :=
  match v with
  | PNone => PStr EmptyString
  | _ => v
  end.

(** The cells that are the empty string once [fillna] has run. *)
Definition is_blank (v : pyval) : bool := pyval_eqb (fillna_empty v) (PStr EmptyString).

(** [df.copy().fillna("").to_dict(orient="records")] *)
Definition to_records (df : list (dict pyval)) : list (dict pyval) :=
  map (map (fun kv => (fst kv, fillna_empty (snd kv)))) df.

(** The fields exempt from the default, in the order of the source tuple. *)
Definition kept_fields : list string := ["activity"; "remarks"; "activity_id"].

(** [v == "" and k not in ("activity", "remarks", "activity_id")] *)
Definition reverts (kv : string * pyval) : bool :=
  pyval_eqb (snd kv) (PStr EmptyString) && negb (in_list (fst kv) kept_fields).

(** [for k, v in list(r.items()): if ...: r[k] = default_val] *)
Definition clean_record (default_val : string) (r : dict pyval) : dict pyval :=
  fold_left
    (fun r' kv =>
       if reverts kv then dict_set (fst kv) (PStr default_val) r' else r')
    r r.

Definition clean_inspections (editor_df : option (list (dict pyval)))
  (default_val : string) : list (dict pyval) :=
  match editor_df with
  | None => []
  | Some df => map (clean_record default_val) (to_records df)
  end.


(** The handler's calls: visual checklists revert to "Satisfactory",
    must-do checklists to "Done". *)
Definition clean_visual (editor_df : option (list (dict pyval))) : list (dict pyval) :=
  clean_inspections editor_df "Satisfactory".

Definition clean_must_do (editor_df : option (list (dict pyval))) : list (dict pyval) :=
  clean_inspections editor_df "Done".

(* ================================================================== *)
(** ** The report story: [generate_inspection_pdf] *)
(* ================================================================== *)

(** The paragraph styles of the source. *)
Inductive pstyle : Type := title_style | h_style | small.

(** A table cell: a paragraph, or an image built from its bytes with a
    width and height in millimetres. *)
Inductive cell : Type :=
| CPara (markup : string) (style : pstyle)
| CImage (data : string) (width height : Z).

(** A column width as the source writes it: [n*mm], or the share
    [(260*mm - 80*mm - 40*mm) / scnt] of one spring column.  The
    floating-point value of the expression is not computed. *)
Inductive width : Type :=
| mm (n : Z)
| remaining_over (scnt : nat).

(** The flowables appended to [story].  Of the table styles only the
    header background, the one that depends on an argument, is kept. *)
Inductive flowable : Type :=
| Paragraph (markup : string) (style : pstyle)
| Spacer (width height : Z)
| Table (rows : list (list cell)) (colWidths : list width) (header_bg : option string).

(** [html.escape(text)]: the ampersand is replaced first, so a
    character-wise mapping gives the same text. *)
Definition escape_char (c : ascii) : string :=
  if Ascii.eqb c "&"%char then "&amp;"
  else if Ascii.eqb c "<"%char then "&lt;"
  else if Ascii.eqb c ">"%char then "&gt;"
  else if Ascii.eqb c "034"%char then "&quot;"
  else if Ascii.eqb c "'"%char then "&#x27;"
  else String c EmptyString.

Fixpoint html_escape (s : string) : string :=
  match s with
  | EmptyString => EmptyString
  | String c s' => escape_char c ++ html_escape s'
  end.

(** [text.replace("\n", "<br/>")] *)
Fixpoint newlines_to_br (s : string) : string :=
  match s with
  | EmptyString => EmptyString
  | String c s' =>
      if Ascii.eqb c "010"%char then "<br/>" ++ newlines_to_br s'
      else String c (newlines_to_br s')
  end.

(** [_para(text, style)] on scalar values. *)
Definition _para (text : pyval) (style : pstyle) : cell :=
  let text := match text with PNone => EmptyString | _ => str text end in
  CPara (newlines_to_br (html_escape text)) style.

(** [_para] of a literal. *)
Definition label (text : string) : cell := _para (PStr text) small.

(** The [record] dictionary; [None] is a missing key. *)
Record report : Type := {
  coach_number : option pyval;
  coach_code : option pyval;
  coach_type : option pyval;
  secondary_type : option pyval;
  bogie1_number : option pyval;
  bogie2_number : option pyval;
  date_of_receipt : option string;
  inspector_name : option pyval;
  spring_counts : option (dict Z);
  bogie1_defects : option (list (dict pyval));
  bogie2_defects : option (list (dict pyval));
  bogie1_inspections : option (list (dict pyval));
  bogie2_inspections : option (list (dict pyval));
  bogie1_must_do : option (list (dict pyval));
  bogie2_must_do : option (list (dict pyval));
  _sig_shop_name : option pyval;
  _sig_ins_name : option pyval;
  _sig_shop_date : option pyval;
  _sig_ins_date : option pyval
}.

(** [record.get(key, "")] *)
Definition text_of (o : option pyval) : pyval := or_default (PStr EmptyString) o.

(** [record.get(key, []) or []] and [record.get(key, [])] *)
Definition list_of {A : Type} (o : option (list A)) : list A :=
  match o with Some l => l | None => [] end.

Definition coach_info (record : report) : list (list cell) :=
  [ [label "Coach Number:"; _para (text_of (coach_number record)) small;
     label "Coach Code:"; _para (text_of (coach_code record)) small];
    [label "Coach Type:"; _para (text_of (coach_type record)) small;
     label "Secondary Type:"; _para (text_of (secondary_type record)) small];
    [label "Bogie 1 No.:"; _para (text_of (bogie1_number record)) small;
     label "Bogie 2 No.:"; _para (text_of (bogie2_number record)) small];
    [label "Date of Receipt:";
     _para (PStr (take 10 (match date_of_receipt record with
                           | Some s => s
                           | None => EmptyString
                           end))) small;
     label "Inspector:"; _para (PStr (str (text_of (inspector_name record)))) small] ].

(** The block under [if spring_counts:]. *)
Definition spring_configuration (scounts : dict Z) : list flowable :=
  match scounts with
  | [] => []
  | _ =>
      [ Paragraph "Spring Configuration" h_style;
        Table
          (fold_left
             (fun rows kv =>
                rows ++ [[_para (PStr (fst kv)) small;
                          _para (PStr (str_of_Z (snd kv) ++ " per bogie")) small]])
             scounts
             [[label "Spring Type"; label "Qty / Bogie"]])
          [mm 110; mm 30] (Some "#1976d2");
        Spacer 1 8 ]
  end.

(** [defect_code_to_name.get(defect_code, defect_code)] *)
Fixpoint code_name (defect_code_to_name : list (pyval * pyval)) (defect_code : pyval)
  : option pyval :=
  match defect_code_to_name with
  | [] => None
  | (k, v) :: rest =>
      if pyval_eqb defect_code k then Some v else code_name rest defect_code
  end.

Definition defect_display (defect_code_to_name : list (pyval * pyval))
  (d : dict pyval) : pyval :=
  let defect_code := dict_get_default "defectType" (PStr EmptyString) d in
  match code_name defect_code_to_name defect_code with
  | Some name => name
  | None => defect_code
  end.

(** The list appended to [defects_combined] for one defect. *)
Definition defect_row (defect_code_to_name : list (pyval * pyval))
  (bogie_actual : pyval) (d : dict pyval) : list cell :=
  [ _para bogie_actual small;
    _para (dict_get_default "springType" (PStr EmptyString) d) small;
    _para (dict_get_default "springNumber" (PStr EmptyString) d) small;
    _para (defect_display defect_code_to_name d) small;
    _para (dict_get_default "location" (PStr EmptyString) d) small ].

(** The two loops filling [defects_combined]. *)
Definition defects_combined (defect_code_to_name : list (pyval * pyval))
  (bogie1_actual bogie2_actual : pyval) (b1 b2 : list (dict pyval))
  : list (list cell) :=
  let combined :=
    fold_left (fun acc d => acc ++ [defect_row defect_code_to_name bogie1_actual d])
      b1 [] in
  fold_left (fun acc d => acc ++ [defect_row defect_code_to_name bogie2_actual d])
    b2 combined.

Definition defects_header : list cell :=
  [label "Bogie"; label "Spring Type"; label "Spring No."; label "Defect Type";
   label "Location"].

Definition no_defects_notice : flowable :=
  Paragraph "<i>No defects reported.</i>" small.

(** From [story.append(Paragraph("Defects Summary", ...))] to the spacer
    that follows the table or the notice. *)
Definition defects_summary (record : report)
  (defect_code_to_name : list (pyval * pyval)) : list flowable :=
  let b1 := list_of (bogie1_defects record) in
  let b2 := list_of (bogie2_defects record) in
  let bogie1_actual := or_default (PStr "Bogie 1") (bogie1_number record) in
  let bogie2_actual := or_default (PStr "Bogie 2") (bogie2_number record) in
  [ Paragraph "Defects Summary" h_style;
    Paragraph
      ("Bogie1: <b>" ++ str_of_nat (length b1) ++ "</b>  &nbsp;&nbsp; Bogie2: <b>"
         ++ str_of_nat (length b2) ++ "</b>  &nbsp;&nbsp; Total: <b>"
         ++ str_of_nat (length b1 + length b2) ++ "</b>") small;
    Spacer 1 6 ]
  ++ [ match defects_combined defect_code_to_name bogie1_actual bogie2_actual b1 b2 with
       | [] => no_defects_notice
       | rows =>
           Table (defects_header :: rows) [mm 25; mm 50; mm 25; mm 60; mm 40]
             (Some "#c62828")
       end ]
  ++ [ Spacer 1 10 ].

(** The nested function [render_inspection_table]; it returns what it
    appends to [story]. *)
Definition render_inspection_table (title : string) (activities : list (dict pyval))
  (scounts : dict Z) (color_hex : string) : list flowable :=
  let cols := ["Activity"] ++ dict_keys scounts ++ ["Remarks"] in
  let scnt := Nat.max 1 (length scounts) in
  let spring_w := remaining_over scnt in
  let colw := [mm 80] ++ repeat spring_w scnt ++ [mm 40] in
  let rows :=
    fold_left
      (fun rows act =>
         rows ++
         [ [_para (dict_get_default "activity" (PStr EmptyString) act) small]
           ++ map (fun stype =>
                     _para (dict_get_default (position_key stype) (PStr EmptyString) act)
                       small)
                (dict_keys scounts)
           ++ [_para (dict_get_default "remarks" (PStr EmptyString) act) small] ])
      activities
      [map label cols] in
  [ Paragraph title h_style; Table rows colw (Some color_hex); Spacer 1 8 ].

Definition blank_line : pyval := PStr "__________________".

Definition signatures (record : report) : list flowable :=
  [ Spacer 1 12;
    Paragraph "Signatures" h_style;
    Table
      [ [label "Prepared By (SSE SPRING SHOP)"; label EmptyString;
         label "Checked By (SSE / INSPECTION)"; label EmptyString];
        [label "Name & Signature:";
         _para (por (text_of (_sig_shop_name record)) blank_line) small;
         label "Name & Signature:";
         _para (por (text_of (_sig_ins_name record)) blank_line) small];
        [label "Date:";
         _para (por (text_of (_sig_shop_date record)) blank_line) small;
         label "Date:";
         _para (por (text_of (_sig_ins_date record)) blank_line) small] ]
      [mm 50; mm 70; mm 50; mm 70] None ].

(** Truth value of an optional [bytes] argument. *)
Definition has_bytes (b : option string) : bool :=
  match b with
  | Some data => negb (String.eqb data EmptyString)
  | None => false
  end.

Section Rendering.

(** The imaging and layout library: whether [RLImage(BytesIO(data), ...)]
    accepts the bytes, and [doc.build(story)] followed by reading the buffer. *)
Variable image_readable : string -> bool.
Variable doc_build : list flowable -> result string.

Definition RLImage (data : string) (width height : Z) : result cell :=
  if image_readable data then Ok (CImage data width height) else Raise LibraryError.

(** One [if sig_bytes: img_cells[i] = RLImage(...)] statement. *)
Definition image_cell (sig_bytes : option string) : result (option cell) :=
  match sig_bytes with
  | Some data =>
      if has_bytes sig_bytes then img <- RLImage data 45 20 ;; Ok (Some img)
      else Ok None
  | None => Ok None
  end.

(** The constructor call for these bytes is made and raises. *)
Definition image_fails (sig_bytes : option string) : bool :=
  match sig_bytes with
  | Some data => has_bytes sig_bytes && negb (image_readable data)
  | None => false
  end.

Definition cell_or_blank (c : option cell) : cell :=
  match c with Some img => img | None => label EmptyString end.

(** Everything appended to [story] before the signature images. *)
Definition story_body (record : report) (defect_code_to_name : list (pyval * pyval))
  : list flowable :=
  let scounts := list_of (spring_counts record) in
  [ Paragraph "SPRING INSPECTION REPORT" title_style;
    Spacer 1 6;
    Table (coach_info record) [mm 30; mm 70; mm 30; mm 70] (Some "#f1f8e9");
    Spacer 1 8 ]
  ++ spring_configuration scounts
  ++ defects_summary record defect_code_to_name
  ++ render_inspection_table "Visual Inspection - Bogie 1"
       (list_of (bogie1_inspections record)) scounts "#2e7d32"
  ++ render_inspection_table "Visual Inspection - Bogie 2"
       (list_of (bogie2_inspections record)) scounts "#2e7d32"
  ++ render_inspection_table "Must Do - Bogie 1"
       (list_of (bogie1_must_do record)) scounts "#1565c0"
  ++ render_inspection_table "Must Do - Bogie 2"
       (list_of (bogie2_must_do record)) scounts "#1565c0"
  ++ signatures record.

(** The block under [if sig_shop_bytes or sig_ins_bytes:], with its
    [try ... except Exception: pass]. *)
Definition with_signature_images (story : list flowable)
  (sig_shop_bytes sig_ins_bytes : option string) : list flowable :=
  if has_bytes sig_shop_bytes || has_bytes sig_ins_bytes then
    try_except
      (c0 <- image_cell sig_shop_bytes ;;
       c1 <- image_cell sig_ins_bytes ;;
       let img_row :=
         [cell_or_blank c0; label EmptyString; cell_or_blank c1; label EmptyString] in
       Ok (story ++ [Spacer 1 6; Table [img_row] [mm 50; mm 70; mm 50; mm 70] None]))
      story
  else story.

(** The list handed to [doc.build]. *)
Definition build_story (record : report) (defect_code_to_name : list (pyval * pyval))
  (sig_shop_bytes sig_ins_bytes : option string) : list flowable :=
  with_signature_images (story_body record defect_code_to_name)
    sig_shop_bytes sig_ins_bytes.

Definition generate_inspection_pdf (record : report)
  (defect_code_to_name : list (pyval * pyval))
  (sig_shop_bytes sig_ins_bytes : option string) : result string :=
  doc_build (build_story record defect_code_to_name sig_shop_bytes sig_ins_bytes).

End Rendering.

(* ================================================================== *)
(** ** Reading aids *)
(* ================================================================== *)

(** The definitions that reach [counts[spring_name] = ...]: applicable to
    the coach type and not skipped by the AIR rule. *)
Definition kept (coach_type norm : string) (it : st_item) : bool :=
  applicable coach_type it &&
  negb (contains "AIR" norm && contains "secondary" (lower (spring_name_of it))).

(** The elements of [l] that are not in [seen], each once, in the order of
    their first occurrence: the order in which assignments add keys. *)
Fixpoint first_occurrences (seen l : list string) : list string :=
  match l with
  | [] => []
  | x :: l' =>
      if in_list x seen then first_occurrences seen l'
      else x :: first_occurrences (seen ++ [x]) l'
  end.

Definition chars (s : string) : list ascii := list_ascii_of_string s.

(** The markup of a paragraph cell. *)
Definition cell_markup (c : cell) : string :=
  match c with
  | CPara markup _ => markup
  | CImage _ _ _ => EmptyString
  end.

(** The characters [_para] rewrites. *)
Definition special_char (c : ascii) : bool :=
  Ascii.eqb c "&"%char || Ascii.eqb c "<"%char || Ascii.eqb c ">"%char
  || Ascii.eqb c "034"%char || Ascii.eqb c "'"%char || Ascii.eqb c "010"%char.

(** The section headings of a story: its [h_style] paragraphs, in order. *)
Definition headings (story : list flowable) : list string :=
  flat_map
    (fun f => match f with
              | Paragraph markup h_style => [markup]
              | _ => []
              end)
    story.

(** What an image slot shows once its bytes have loaded: the image, or a
    blank paragraph when no bytes were supplied. *)
Definition image_slot (sig_bytes : option string) : cell :=
  match sig_bytes with
  | Some data => if has_bytes sig_bytes then CImage data 45 20 else label EmptyString
  | None => label EmptyString
  end.

(** The markup [_para] gives one character of the text. *)
Definition char_markup (c : ascii) : string := newlines_to_br (escape_char c).

(* ================================================================== *)
(** ** The Generate Report handler *)
(* ================================================================== *)

(** The coach type of the report: the one recorded on the first failure
    row, or, when that is missing, null or empty, a guess from the coach
    code.  [coach_code] is [first_record.get('coach_code', '')]. *)
Definition existing_coach_type (coach_type : option string) (coach_code : option pyval)
  : string :=
  let guess :=
    let coach_code_str := strip (upper (str (or_default (PStr EmptyString) coach_code))) in
    if contains "VB" coach_code_str then "VB"
    else if contains "LHB" coach_code_str || contains "LW" coach_code_str then "LHB"
    else "LHB" in
  match coach_type with
  | Some t => if truthy (PStr t) then t else guess
  | None => guess
  end.

(** The secondary suspension type of the report, "Air Spring" when the
    first failure row has none. *)
Definition existing_secondary_type (secondary_suspension_type : option string) : string :=
  match secondary_suspension_type with
  | Some t => if truthy (PStr t) then t else "Air Spring"
  | None => "Air Spring"
  end.

(** [spring_counts = get_spring_counts(existing_coach_type,
    existing_secondary_type, spring_types)] *)
Definition report_spring_counts (coach_type : option string) (coach_code : option pyval)
  (secondary_suspension_type : option string) (spring_types : list st_item)
  : result (dict Z) :=
  get_spring_counts (existing_coach_type coach_type coach_code)
    (Some (existing_secondary_type secondary_suspension_type)) spring_types.

(** [next((i["name"] for i in inspectors if i["id"] == inspector_id), "")];
    an inspector is its id and its name. *)
Fixpoint inspector_named (inspectors : list (pyval * pyval)) (inspector_id : pyval)
  : pyval :=
  match inspectors with
  | [] => PStr EmptyString
  | (id, name) :: rest =>
      if pyval_eqb id inspector_id then name else inspector_named rest inspector_id
  end.

(** What the page holds when "Generate PDF Report" is pressed.  The
    receipt date arrives as the ISO text of
    [datetime.combine(existing_receipt_date, datetime.min.time())]. *)
Record report_form : Type := {
  selected_coach_number : pyval;
  first_coach_code : pyval;
  report_coach_type : string;
  report_secondary_type : string;
  report_bogie1 : string;
  report_bogie2 : string;
  receipt_isoformat : string;
  current_spring_counts : dict Z;
  coach_failures : list failure_row;
  edited_vis_b1 : option (list (dict pyval));
  edited_vis_b2 : option (list (dict pyval));
  edited_must_b1 : option (list (dict pyval));
  edited_must_b2 : option (list (dict pyval));
  inspector_id : pyval;
  inspectors : list (pyval * pyval);
  sig_shop_name : string;
  sig_ins_name : string;
  sig_shop_date : string;
  sig_ins_date : string
}.

(** [x if x else dflt] on text. *)
Definition text_or (x dflt : string) : string :=
  if truthy (PStr x) then x else dflt.

Section Handler.

Variables datetime date : Type.
Variable fromisoformat : string -> result datetime.
Variable to_date : datetime -> date.
Variable date_isoformat : date -> string.
Variable datetime_isoformat : datetime -> string.

(** [_sig_shop_date_val = normalize_sig_date(sig_shop_date)] as a value of
    the record. *)
Definition sig_date_val (text : string) : pyval :=
  match normalize_sig_date fromisoformat to_date date_isoformat datetime_isoformat
          (Some text) with
  | Some d => PStr d
  | None => PNone
  end.

(** The [record = {...}] literal with the values computed before it.  Its
    [inspector_id] entry is never read and is left out. *)
Definition handler_record (f : report_form) : report :=
  let defects := partition_defects (coach_failures f) in
  {| coach_number := Some (selected_coach_number f);
     coach_code := Some (first_coach_code f);
     coach_type := Some (PStr (report_coach_type f));
     secondary_type := Some (PStr (report_secondary_type f));
     bogie1_number := Some (PStr (text_or (report_bogie1 f) "Bogie 1"));
     bogie2_number := Some (PStr (text_or (report_bogie2 f) EmptyString));
     date_of_receipt := Some (receipt_isoformat f);
     inspector_name :=
       Some (if truthy (inspector_id f)
             then inspector_named (inspectors f) (inspector_id f)
             else PStr EmptyString);
     spring_counts := Some (current_spring_counts f);
     bogie1_defects := Some (fst defects);
     bogie2_defects := Some (snd defects);
     bogie1_inspections := Some (clean_inspections (edited_vis_b1 f) "Satisfactory");
     bogie2_inspections := Some (clean_inspections (edited_vis_b2 f) "Satisfactory");
     bogie1_must_do := Some (clean_inspections (edited_must_b1 f) "Done");
     bogie2_must_do := Some (clean_inspections (edited_must_b2 f) "Done");
     _sig_shop_name := Some (por (PStr (sig_shop_name f)) PNone);
     _sig_ins_name := Some (por (PStr (sig_ins_name f)) PNone);
     _sig_shop_date := Some (sig_date_val (sig_shop_date f));
     _sig_ins_date := Some (sig_date_val (sig_ins_date f)) |}.

End Handler.

(** [defect_code_to_name = {d.get("defect_code"): d.get("defect_name")
    for d in defect_types}]: a later row with the code of an earlier one
    replaces its name. *)
Fixpoint code_name_set (code name : pyval) (m : list (pyval * pyval))
  : list (pyval * pyval) :=
  match m with
  | [] => [(code, name)]
  | (k, v) :: rest =>
      if pyval_eqb code k then (k, name) :: rest
      else (k, v) :: code_name_set code name rest
  end.

Definition make_defect_code_to_name (defect_types : list (dict pyval))
  : list (pyval * pyval) :=
  fold_left
    (fun m d =>
       code_name_set (dict_get_default "defect_code" PNone d)
         (dict_get_default "defect_name" PNone d) m)
    defect_types [].

(* ================================================================== *)
(** ** The Add Failure form *)
(* ================================================================== *)

(** [x.strip() if x else None] *)
Definition strip_or_none (x : string) : pyval :=
  if truthy (PStr x) then PStr (strip x) else PNone.

Module AddFailure.

(** The values of the form's widgets; [receipt_date] is the text of
    [receipt_date.isoformat()]. *)
Record form : Type := {
  coach_no : string;
  coach_type : string;
  coach_code : string;
  bogie_number : string;
  schedule : string;
  receipt_date : string;
  type_of_spring : string;
  colour_of_spring : string;
  secondary_suspension_type : string;
  division : string;
  type_of_failure : string;
  location : string;
  location_in_bogie : string;
  defect_count : Z;
  mfg : string;
  remarks : string
}.

(** The [new_record = {...}] literal. *)
Definition new_record (f : form) : dict pyval :=
  [ ("coach_no", PStr (strip (coach_no f)));
    ("coach_code", strip_or_none (coach_code f));
    ("coach_type", PStr (coach_type f));
    ("schedule", strip_or_none (schedule f));
    ("division", strip_or_none (division f));
    ("bogie_number", strip_or_none (bogie_number f));
    ("receipt_date", PStr (receipt_date f));
    ("secondary_suspension_type", strip_or_none (secondary_suspension_type f));
    ("type_of_spring", strip_or_none (type_of_spring f));
    ("colour_of_spring", strip_or_none (colour_of_spring f));
    ("type_of_failure", strip_or_none (type_of_failure f));
    ("location", strip_or_none (location f));
    ("location_in_bogie", strip_or_none (location_in_bogie f));
    ("remarks", strip_or_none (remarks f));
    ("mfg", strip_or_none (mfg f));
    ("defect_count", PInt (defect_count f)) ].

(** What pressing "Add Record" leads to: an error message, or the record
    handed to the insert. *)
Inductive outcome : Type :=
| Rejected (message : string)
| Inserted (record : dict pyval).

Definition submit (f : form) : outcome :=
  if negb (truthy (PStr (coach_no f))) || negb (truthy (PStr (strip (coach_no f))))
  then Rejected "Coach No is required!"
  else if negb (truthy (PStr (coach_type f)))
  then Rejected "Coach Type is required!"
  else Inserted (new_record f).

(** The keys filled with [x.strip() if x else None], with their widgets. *)
Definition optional_texts (f : form) : list (string * string) :=
  [ ("coach_code", coach_code f); ("schedule", schedule f); ("division", division f);
    ("bogie_number", bogie_number f);
    ("secondary_suspension_type", secondary_suspension_type f);
    ("type_of_spring", type_of_spring f); ("colour_of_spring", colour_of_spring f);
    ("type_of_failure", type_of_failure f); ("location", location f);
    ("location_in_bogie", location_in_bogie f); ("remarks", remarks f);
    ("mfg", mfg f) ].

End AddFailure.

(* ================================================================== *)
(** ** The edit form of View Failures *)
(* ================================================================== *)

Module EditRecord.

(** A cell of the data-frame row [record_to_edit]: a text, or the [NaN]
    pandas holds where the table has a null. *)
Inductive value : Type :=
| Text (s : string)
| NaN.

(** [str(v)] *)
Definition value_str (v : value) : string :=
  match v with
  | Text s => s
  | NaN => "nan"
  end.

(** Truth value of [v]: a NaN, like every float but zero, is true. *)
Definition value_truthy (v : value) : bool :=
  match v with
  | Text s => negb (String.eqb s EmptyString)
  | NaN => true
  end.

(** [record_to_edit.get(column, '')] for a column that may be missing. *)
Definition get_or_empty (o : option value) : value :=
  match o with
  | Some v => v
  | None => Text EmptyString
  end.

(** The columns of [record_to_edit] that the form reads: the coach number,
    a text, then those read with [record_to_edit[...]] and those read with
    [.get(..., '')], which may be missing. *)
Record stored : Type := {
  coach_no : string;
  coach_type : value;
  bogie_number : option value;
  type_of_spring : value;
  colour_of_spring : value;
  secondary_suspension_type : value;
  type_of_failure : value;
  location : option value;
  location_in_bogie : option value;
  remarks : option value
}.

(** The values of the form's widgets. *)
Record edits : Type := {
  coach_no_edit : string;
  coach_type_edit : string;
  bogie_number_edit : string;
  type_of_spring_edit : string;
  colour_of_spring_edit : string;
  secondary_suspension_edit : string;
  type_of_failure_edit : string;
  location_edit : string;
  location_in_bogie_edit : string;
  remarks_edit : string
}.

(** [record_to_edit['coach_type'] == "VB"] *)
Definition is_vb (v : value) : bool :=
  match v with
  | Text s => String.eqb s "VB"
  | NaN => false
  end.

(** The [value=] and [index=] arguments the widgets are opened with. *)
Definition initial_values (record_to_edit : stored) : edits :=
  {| coach_no_edit := coach_no record_to_edit;
     coach_type_edit := if is_vb (coach_type record_to_edit) then "VB" else "LHB";
     bogie_number_edit := value_str (get_or_empty (bogie_number record_to_edit));
     type_of_spring_edit := value_str (type_of_spring record_to_edit);
     colour_of_spring_edit := value_str (colour_of_spring record_to_edit);
     secondary_suspension_edit := value_str (secondary_suspension_type record_to_edit);
     type_of_failure_edit := value_str (type_of_failure record_to_edit);
     location_edit := value_str (get_or_empty (location record_to_edit));
     location_in_bogie_edit :=
       value_str (get_or_empty (location_in_bogie record_to_edit));
     remarks_edit :=
       value_str (if value_truthy (get_or_empty (remarks record_to_edit))
                  then get_or_empty (remarks record_to_edit)
                  else Text EmptyString) |}.

(** [x if x else None] *)
Definition text_or_none (x : string) : pyval :=
  if truthy (PStr x) then PStr x else PNone.

(** The [updated_data = {...}] literal of "Save". *)
Definition updated_data (e : edits) : dict pyval :=
  [ ("coach_no", PStr (coach_no_edit e));
    ("coach_type", PStr (coach_type_edit e));
    ("bogie_number", text_or_none (bogie_number_edit e));
    ("type_of_spring", PStr (type_of_spring_edit e));
    ("colour_of_spring", PStr (colour_of_spring_edit e));
    ("secondary_suspension_type", PStr (secondary_suspension_edit e));
    ("type_of_failure", PStr (type_of_failure_edit e));
    ("location", text_or_none (location_edit e));
    ("location_in_bogie", text_or_none (location_in_bogie_edit e));
    ("remarks", text_or_none (remarks_edit e)) ].

(** The stored columns as the dictionary they come from, a missing column
    being a missing key. *)
Definition as_dict (r : stored) : dict value :=
  [ ("coach_no", Text (coach_no r)); ("coach_type", coach_type r) ]
  ++ match bogie_number r with Some v => [("bogie_number", v)] | None => [] end
  ++ [ ("type_of_spring", type_of_spring r);
       ("colour_of_spring", colour_of_spring r);
       ("secondary_suspension_type", secondary_suspension_type r);
       ("type_of_failure", type_of_failure r) ]
  ++ match location r with Some v => [("location", v)] | None => [] end
  ++ match location_in_bogie r with Some v => [("location_in_bogie", v)] | None => [] end
  ++ match remarks r with Some v => [("remarks", v)] | None => [] end.

End EditRecord.

(* ================================================================== *)
(** ** The filters of View Failures *)
(* ================================================================== *)

(** [v in values], as [Series.isin] tests each cell. *)
Definition isin (v : pyval) (values : list pyval) : bool :=
  existsb (pyval_eqb v) values.

Section ViewFailures.

(** A row of the failures table and the four columns one can filter on. *)
Variable row : Type.
Variables coach_no_of type_of_failure_of type_of_spring_of coach_type_of : row -> pyval.

(** [if selected: df = df[df[col].isin(selected)]] *)
Definition filter_isin (col : row -> pyval) (selected : list pyval) (df : list row)
  : list row :=
  match selected with
  | [] => df
  | _ => filter (fun r => isin (col r) selected) df
  end.

Definition filtered_df (coach_filter defect_filter spring_filter coach_type_filter
                          : list pyval) (df : list row) : list row :=
  filter_isin coach_type_of coach_type_filter
    (filter_isin type_of_spring_of spring_filter
       (filter_isin type_of_failure_of defect_filter
          (filter_isin coach_no_of coach_filter df))).

(** A row passes a filter when nothing is selected or its cell is. *)
Definition passes (col : row -> pyval) (selected : list pyval) (r : row) : bool :=
  match selected with
  | [] => true
  | _ => isin (col r) selected
  end.

End ViewFailures.

(* ================================================================== *)
(** ** Drop-down options: the [options_list] of [combobox] *)
(* ================================================================== *)

(** Python orders texts by code point; [String_as_OT.compare] is that order. *)
Definition str_lt (a b : string) : Prop := OrdersEx.String_as_OT.lt a b.

(** [sorted(list(set(xs)))] built by insertion: the distinct texts in
    increasing order. *)
Fixpoint insert_distinct (x : string) (l : list string) : list string :=
  match l with
  | [] => [x]
  | y :: l' =>
      match OrdersEx.String_as_OT.compare x y with
      | Lt => x :: l
      | Eq => l
      | Gt => y :: insert_distinct x l'
      end
  end.

Definition sorted_set (xs : list string) : list string :=
  fold_right insert_distinct [] xs.

(** [options_list = [""] + sorted(list(set(filter(None, options))))] *)
Definition options_list (options : list string) : list string :=
  EmptyString :: sorted_set (filter (fun o => truthy (PStr o)) options).

(* ================================================================== *)
(** ** Credentials: [get_supabase_credentials] *)
(* ================================================================== *)

(** How a call of the function ends when it does not return:
    - [CredentialsNotFound]: the [ValueError("Supabase credentials not
      found!")] of its last line;
    - [ModuleNotFoundError]: neither [tomllib] nor [tomli] can be imported;
    - [LoadError]: what [open] or [tomllib.load] raised, other than a
      [FileNotFoundError]: a [PermissionError], a [TOMLDecodeError], ...;
    - [AttributeError]: [.get] called on a [supabase] entry that is not a
      table. *)
Inductive credentials_error : Type :=
| CredentialsNotFound
| ModuleNotFoundError
| LoadError
| AttributeError.

(** What [.streamlit/secrets.toml] gives when it is opened and loaded. *)
Inductive secrets_file (value : Type) : Type :=
| FileNotFound
| LoadRaises
| Loaded (secrets : dict value).

Arguments FileNotFound {value}.
Arguments LoadRaises {value}.

(** The end of the two attempts made on one mapping. *)
Inductive lookup (value : Type) : Type :=
| Found (url key : value)
| Incomplete
| NotATable.

Arguments Incomplete {value}.
Arguments NotATable {value}.

(** The end of a call. *)
Inductive credentials (value : Type) : Type :=
| Return (url key : value)
| Raises (e : credentials_error).

Arguments Raises {value}.

Section Credentials.

(** The values of a secrets mapping (strings, numbers, tables, ...) with
    the two things the function does with one: it tests its truth value and
    it calls its [get].  [table v] is [None] for a value that has no [get],
    that is, for anything but a table. *)
Variable value : Type.
Variable value_truthy : value -> bool.
Variable table : value -> option (dict value).

(** [if supabase_url and supabase_key: return supabase_url, supabase_key],
    a missing entry being the [None] that [.get] returns. *)
Definition both_set (url key : option value) : option (value * value) :=
  match url, key with
  | Some u, Some k =>
      if value_truthy u && value_truthy k then Some (u, k) else None
  | _, _ => None
  end.

(** [secrets.get("supabase", {}).get(name)]; the outer [None] is the
    AttributeError of an entry without [get]. *)
Definition supabase_get (secrets : dict value) (name : string)
  : option (option value) :=
  match dict_get "supabase" secrets with
  | None => Some None
  | Some v =>
      match table v with
      | Some t => Some (dict_get name t)
      | None => None
      end
  end.

(** The two attempts made on one mapping, top-level keys first. *)
Definition credentials_in (secrets : dict value) : lookup value :=
  match both_set (dict_get "SUPABASE_URL" secrets)
                 (dict_get "SUPABASE_KEY" secrets) with
  | Some (u, k) => Found u k
  | None =>
      match supabase_get secrets "url" with
      | None => NotATable
      | Some supabase_url =>
          match supabase_get secrets "anon_key" with
          | None => NotATable
          | Some supabase_key =>
              match both_set supabase_url supabase_key with
              | Some (u, k) => Found u k
              | None => Incomplete
              end
          end
      end
  end.

(** [st_secrets] is [None] when reading [st.secrets] raises.  Whatever goes
    wrong in the first [try] is passed over; of what goes wrong with the
    file only the [FileNotFoundError] is. *)
Definition get_supabase_credentials (st_secrets : option (dict value))
    (toml_importable : bool) (file : secrets_file value) : credentials value :=
  match match st_secrets with
        | Some secrets => credentials_in secrets
        | None => Incomplete
        end with
  | Found u k => Return u k
  | _ =>
      if negb toml_importable then Raises ModuleNotFoundError
      else
        match file with
        | FileNotFound => Raises CredentialsNotFound
        | LoadRaises => Raises LoadError
        | Loaded secrets =>
            match credentials_in secrets with
            | Found u k => Return u k
            | Incomplete => Raises CredentialsNotFound
            | NotATable => Raises AttributeError
            end
        end
  end.

End Credentials.

(* ================================================================== *)
(** ** Bogie corrections of the report page *)
(* ================================================================== *)

(** [coach_failures.iloc[idx, ...] = corrected_bogie] for one row, done
    only [if corrected]. *)
Definition correct_bogie (row : failure_row) (corrected : string) : failure_row :=
  if truthy (PStr corrected)
  then {| type_of_spring := type_of_spring row;
          location_in_bogie := location_in_bogie row;
          type_of_failure := type_of_failure row;
          location := location row;
          bogie_number := Some (PStr corrected) |}
  else row.

(** The corrections typed on the page, one text input per row. *)
Fixpoint apply_bogie_corrections (rows : list failure_row) (corrected : list string)
  : list failure_row :=
  match rows, corrected with
  | row :: rows', c :: corrected' =>
      correct_bogie row c :: apply_bogie_corrections rows' corrected'
  | _, _ => rows
  end.

(* ================================================================== *)
(** ** Worked inputs *)
(* ================================================================== *)

Definition SO : string := "Secondary Outer".
Definition SI : string := "Secondary Inner".

(** The master table of the end-to-end example of the specification. *)
Definition vb_master : list st_item :=
  [ {| coach_types := Val ["VB"]; spring_type := Val "Primary";
       max_per_bogie := Val 4%Z |};
    {| coach_types := Val ["VB"]; spring_type := Val "Secondary Outer";
       max_per_bogie := Val 2%Z |} ].

(** A master table that gives "Secondary Outer" four springs per bogie. *)
Definition outer4_master : list st_item :=
  [ {| coach_types := Val ["VB"]; spring_type := Val "Secondary Outer";
       max_per_bogie := Val 4%Z |} ].

(** A configuration with a position named like a row field. *)
Definition remarks_counts : dict Z := [("Remarks", 1%Z)].

Definition failure (bogie : option pyval) : failure_row :=
  {| type_of_spring := PStr "Primary"; location_in_bogie := Some (PInt 3);
     type_of_failure := PStr "D01"; location := PStr "Top";
     bogie_number := bogie |}.

(** The defects of the end-to-end example: bogie "2", "" and "1". *)
Definition three_failures : list failure_row :=
  [ failure (Some (PStr "2")); failure (Some (PStr EmptyString));
    failure (Some (PStr "1")) ].

(** An edited visual checklist row: one blank cell, one missing cell, one
    answered cell, blank remarks. *)
Definition edited_row : dict pyval :=
  [ ("activity_id", PInt 7); ("activity", PStr "Measure coil gap");
    ("remarks", PStr EmptyString); ("primary", PStr EmptyString);
    ("secondaryouter", PNone); ("secondaryinner", PStr "Unsatisfactory") ].


Definition sample_report (b1 b2 : list (dict pyval)) : report :=
  {| coach_number := Some (PStr "12345"); coach_code := Some (PStr "VB-1");
     coach_type := Some (PStr "VB"); secondary_type := Some (PStr "Air Spring");
     bogie1_number := Some (PStr "A1"); bogie2_number := Some (PStr EmptyString);
     date_of_receipt := Some "2024-01-15T00:00:00";
     inspector_name := Some (PStr EmptyString);
     spring_counts := Some [("Primary", 4%Z)];
     bogie1_defects := Some b1; bogie2_defects := Some b2;
     bogie1_inspections := Some []; bogie2_inspections := Some [];
     bogie1_must_do := Some []; bogie2_must_do := Some [];
     _sig_shop_name := Some PNone; _sig_ins_name := Some PNone;
     _sig_shop_date := Some PNone; _sig_ins_date := Some PNone |}.

Definition sample_codes : list (pyval * pyval) := [(PStr "D01", PStr "Crack")].

(** A stand-in imaging library: PNG-tagged bytes load, anything else raises;
    and a stand-in layout that reports the number of flowables. *)
Definition png_only (data : string) : bool := prefix "PNG" data.

Definition count_build (story : list flowable) : result string :=
  Ok (str_of_nat (length story)).

(** The bytes of the images a story holds. *)
Definition story_images (story : list flowable) : list string :=
  flat_map
    (fun f =>
       match f with
       | Table rows _ _ =>
           flat_map
             (flat_map (fun c => match c with
                                 | CImage data _ _ => [data]
                                 | CPara _ _ => []
                                 end))
             rows
       | _ => []
       end)
    story.

(** A stand-in layout that decodes the images it draws: a PNG without its
    end chunk makes it raise, as a cut-off file does when it is drawn. *)
Definition decoding_build (story : list flowable) : result string :=
  if forallb (contains "IEND") (story_images story)
  then Ok (str_of_nat (length story))
  else Raise LibraryError.

(** A filled report page: no bogie number entered, one rejected date. *)
Definition sample_form (failures : list failure_row) : report_form :=
  {| selected_coach_number := PStr "12345"; first_coach_code := PStr "VB-1";
     report_coach_type := "VB"; report_secondary_type := "Air Spring";
     report_bogie1 := EmptyString; report_bogie2 := EmptyString;
     receipt_isoformat := "2024-01-15T00:00:00";
     current_spring_counts := [("Primary", 4%Z)];
     coach_failures := failures;
     edited_vis_b1 := None; edited_vis_b2 := None;
     edited_must_b1 := None; edited_must_b2 := None;
     inspector_id := PNone; inspectors := [];
     sig_shop_name := "A. Kumar"; sig_ins_name := EmptyString;
     sig_shop_date := " 15 Jan "; sig_ins_date := EmptyString |}.

(** Values of a secrets file for the worked inputs: strings, integers and
    tables of strings. *)
Inductive toml_value : Type :=
| TomlStr (s : string)
| TomlInt (z : Z)
| TomlTable (entries : list (string * string)).

Definition toml_truthy (v : toml_value) : bool :=
  match v with
  | TomlStr s => truthy (PStr s)
  | TomlInt z => truthy (PInt z)
  | TomlTable entries => negb (Nat.eqb (length entries) 0)
  end.

Definition toml_table (v : toml_value) : option (dict toml_value) :=
  match v with
  | TomlTable entries => Some (map (fun e => (fst e, TomlStr (snd e))) entries)
  | _ => None
  end.

(** A mapping whose top-level key is empty and whose [supabase] table is
    complete, and one whose [supabase] entry is a string. *)
Definition table_secrets : dict toml_value :=
  [ ("SUPABASE_URL", TomlStr "https://a"); ("SUPABASE_KEY", TomlStr EmptyString);
    ("supabase", TomlTable [("url", "https://b"); ("anon_key", "kb")]) ].

Definition string_secrets : dict toml_value :=
  [ ("supabase", TomlStr "https://b") ].

(* ================================================================== *)
(** ** Dictionaries *)
(* ================================================================== *)

Section DictFacts.
Variable V : Type.
Implicit Types (d : dict V) (k : string) (v : V).

Lemma dict_get_set_same k v d : dict_get k (dict_set k v d) = Some v.
Proof.
  induction d as [|[k' v'] d IH]; simpl.
  - now rewrite String.eqb_refl.
  - destruct (String.eqb k k') eqn:E; simpl; rewrite E; auto.
Qed.

Lemma dict_get_set_other k k' v d :
  k <> k' -> dict_get k' (dict_set k v d) = dict_get k' d.
Proof.
  intros Hne. induction d as [|[k0 v0] d IH]; simpl.
  - destruct (String.eqb k' k) eqn:E; auto.
    apply String.eqb_eq in E. congruence.
  - destruct (String.eqb k k0) eqn:E; simpl.
    + apply String.eqb_eq in E. subst k0.
      destruct (String.eqb k' k) eqn:E'; auto.
      apply String.eqb_eq in E'. congruence.
    + now rewrite IH.
Qed.

Lemma dict_get_set k k' v d :
  dict_get k' (dict_set k v d) = if String.eqb k' k then Some v else dict_get k' d.
Proof.
  destruct (String.eqb k' k) eqn:E.
  - apply String.eqb_eq in E. subst. apply dict_get_set_same.
  - apply String.eqb_neq in E. apply dict_get_set_other. congruence.
Qed.

Lemma dict_mem_get k d : dict_mem k d = true <-> dict_get k d <> None.
Proof.
  unfold dict_mem. destruct (dict_get k d); split; congruence.
Qed.

Lemma dict_get_In k d : dict_get k d <> None <-> In k (dict_keys d).
Proof.
  induction d as [|[k' v'] d IH]; simpl.
  - split; [congruence | tauto].
  - destruct (String.eqb k k') eqn:E.
    + apply String.eqb_eq in E. subst. split; [auto | congruence].
    + apply String.eqb_neq in E. rewrite IH. split; [auto | intros [H|H]; congruence].
Qed.

Lemma dict_keys_set k v d :
  dict_keys (dict_set k v d) =
  if dict_mem k d then dict_keys d else dict_keys d ++ [k].
Proof.
  unfold dict_mem. induction d as [|[k' v'] d IH]; simpl; auto.
  destruct (String.eqb k k') eqn:E; simpl; auto.
  rewrite IH. now destruct (dict_get k d).
Qed.

End DictFacts.

(* ================================================================== *)
(** ** Properties of [get_spring_counts] *)
(* ================================================================== *)

Lemma spring_loop_unknown coach_type norm sts counts :
  (forall it, In it sts -> applicable coach_type it = false) ->
  spring_loop coach_type norm sts counts = Ok counts.
Proof.
  induction sts as [|it rest IH]; intros Hun; simpl; auto.
  unfold spring_step.
  rewrite (Hun it) by now left. simpl. apply IH.
  intros it' Hin. apply Hun. now right.
Qed.

Lemma spring_loop_returns coach_type norm sts counts :
  Forall (fun it => max_per_bogie it <> Null) sts ->
  exists base, spring_loop coach_type norm sts counts = Ok base.
Proof.
  intros Hwf. revert counts.
  induction Hwf as [|it rest Hit _ IH]; intros counts; simpl.
  - now exists counts.
  - unfold spring_step, max_per_bogie_int.
    destruct (applicable _ _); simpl; auto.
    destruct (_ && _); simpl; auto.
    destruct (max_per_bogie it); simpl; auto. congruence.
Qed.

(** Under AIR, the loop adds no key whose lower-cased name contains
    "secondary". *)
Lemma spring_loop_air coach_type norm sts counts base :
  contains "AIR" norm = true ->
  spring_loop coach_type norm sts counts = Ok base ->
  forall k, dict_get k base <> None ->
    dict_get k counts <> None \/ contains "secondary" (lower k) = false.
Proof.
  intros Hair. revert counts.
  induction sts as [|it rest IH]; intros counts Hloop k Hk; simpl in Hloop.
  - inversion Hloop; subst. now left.
  - destruct (spring_step coach_type norm counts it) as [c1|e] eqn:Hstep;
      simpl in Hloop; [|discriminate].
    destruct (IH _ Hloop k Hk) as [Hin|Hno]; [|now right].
    unfold spring_step in Hstep.
    destruct (applicable _ _); [|inversion Hstep; subst; now left].
    rewrite Hair in Hstep. simpl in Hstep.
    destruct (contains "secondary" (lower (spring_name_of it))) eqn:Hsec.
    + inversion Hstep; subst. now left.
    + destruct (max_per_bogie_int it) as [n|e]; simpl in Hstep; [|discriminate].
      inversion Hstep; subst c1. rewrite dict_get_set in Hin.
      destruct (String.eqb k (spring_name_of it)) eqn:E.
      * apply String.eqb_eq in E. subst k. now right.
      * now left.
Qed.

(** Every key of the loop's result was there before or names a definition
    applicable to the coach type. *)
Lemma spring_loop_keys coach_type norm sts counts base :
  spring_loop coach_type norm sts counts = Ok base ->
  forall k, dict_get k base <> None ->
    dict_get k counts <> None \/
    exists it, In it sts /\ applicable coach_type it = true /\ spring_name_of it = k.
Proof.
  revert counts.
  induction sts as [|it rest IH]; intros counts Hloop k Hk; simpl in Hloop.
  - inversion Hloop; subst. now left.
  - destruct (spring_step coach_type norm counts it) as [c1|e] eqn:Hstep;
      simpl in Hloop; [|discriminate].
    destruct (IH _ Hloop k Hk) as [Hin|(it' & Hin' & Happ & Hname)].
    + unfold spring_step in Hstep.
      destruct (applicable coach_type it) eqn:Happ;
        [|inversion Hstep; subst; now left].
      destruct (_ && _); [inversion Hstep; subst; now left|].
      destruct (max_per_bogie_int it) as [n|e]; simpl in Hstep; [|discriminate].
      inversion Hstep; subst c1. rewrite dict_get_set in Hin.
      destruct (String.eqb k (spring_name_of it)) eqn:E.
      * apply String.eqb_eq in E. right. exists it. simpl. auto.
      * now left.
    + right. exists it'. simpl. auto.
Qed.

Lemma coil_defaults_get (base : dict Z) :
  dict_get SO (coil_defaults base) = Some (dict_get_default SO 2%Z base) /\
  dict_get SI (coil_defaults base) = Some (dict_get_default SI 2%Z base) /\
  forall k, k <> SO -> k <> SI -> dict_get k (coil_defaults base) = dict_get k base.
Proof.
  unfold coil_defaults, secondary_names, dict_get_default, dict_mem. simpl.
  fold SO SI.
  assert (Hne : SO <> SI) by discriminate.
  destruct (dict_get SO base) as [a|] eqn:Ea.
  - destruct (dict_get SI base) as [b|] eqn:Eb.
    + repeat split; auto.
    + repeat split.
      * rewrite dict_get_set_other; auto.
      * apply dict_get_set_same.
      * intros k _ H2. rewrite dict_get_set_other; auto.
  - rewrite (dict_get_set_other (k:=SO) (k':=SI)) by auto.
    destruct (dict_get SI base) as [b|] eqn:Eb.
    + repeat split.
      * apply dict_get_set_same.
      * rewrite dict_get_set_other; auto.
      * intros k H1 _. rewrite dict_get_set_other; auto.
    + repeat split.
      * rewrite dict_get_set_other; auto. apply dict_get_set_same.
      * apply dict_get_set_same.
      * intros k H1 H2. rewrite !dict_get_set_other; auto.
Qed.

Lemma get_spring_counts_returns coach_type secondary_type sts :
  Forall (fun it => max_per_bogie it <> Null) sts ->
  exists counts, get_spring_counts coach_type secondary_type sts = Ok counts.
Proof.
  intros Hwf. unfold get_spring_counts.
  destruct (spring_loop_returns coach_type
              (secondary_type_normalized secondary_type) [] Hwf) as [base Hb].
  rewrite Hb. simpl. eauto.
Qed.

(** C1, as stated, fails: with "COIL" in the secondary type and a master
    definition that gives "Secondary Outer" four springs per bogie, the
    returned configuration holds "Secondary Outer" -> 4, not 2. *)
Lemma coil_explicit_value_kept :
  ~ (forall coach_type secondary_type sts counts,
       contains "COIL" (secondary_type_normalized secondary_type) = true ->
       get_spring_counts coach_type secondary_type sts = Ok counts ->
       dict_get SO counts = Some 2%Z /\ dict_get SI counts = Some 2%Z).
Proof.
  intros H.
  assert (Hrun : get_spring_counts "VB" (Some "COIL") outer4_master
                 = Ok [(SO, 4%Z); (SI, 2%Z)]) by reflexivity.
  destruct (H "VB" (Some "COIL") outer4_master _ eq_refl Hrun) as [Hso _].
  discriminate Hso.
Qed.

(** C1 (amended): when the normalised secondary type contains "COIL", a
    call that returns gives both "Secondary Outer" and "Secondary Inner" a
    quantity: the one the master loop assigned to that name, or 2 when the
    loop assigned none; every other name keeps what the loop gave it.  The
    call returns whenever no definition carries a null [max_per_bogie], and
    with empty master data it returns exactly the two entries with 2. *)
Theorem get_spring_counts_coil coach_type secondary_type sts :
  contains "COIL" (secondary_type_normalized secondary_type) = true ->
  (Forall (fun it => max_per_bogie it <> Null) sts ->
   exists counts, get_spring_counts coach_type secondary_type sts = Ok counts) /\
  (forall counts,
     get_spring_counts coach_type secondary_type sts = Ok counts ->
     exists base,
       spring_loop coach_type (secondary_type_normalized secondary_type) sts [] = Ok base /\
       dict_get SO counts = Some (dict_get_default SO 2%Z base) /\
       dict_get SI counts = Some (dict_get_default SI 2%Z base) /\
       (forall k, k <> SO -> k <> SI -> dict_get k counts = dict_get k base) /\
       (forall name, In name secondary_names ->
          (forall it, In it sts -> applicable coach_type it = true ->
                      spring_name_of it <> name) ->
          dict_get name counts = Some 2%Z)) /\
  get_spring_counts coach_type secondary_type [] = Ok [(SO, 2%Z); (SI, 2%Z)].
Proof.
  intros Hcoil. split; [apply get_spring_counts_returns|]. split.
  - intros counts Hget. unfold get_spring_counts in Hget.
    destruct (spring_loop coach_type _ sts []) as [base|e] eqn:Hloop;
      simpl in Hget; [|discriminate].
    rewrite Hcoil in Hget. inversion Hget; subst counts. clear Hget.
    exists base. split; [reflexivity|].
    destruct (coil_defaults_get base) as (Hso & Hsi & Hother).
    repeat split; auto.
    intros name Hname Hnone.
    assert (Habs : dict_get name base = None).
    { destruct (dict_get name base) eqn:E; auto.
      destruct (spring_loop_keys _ _ _ _ Hloop name) as [Hin|(it & Hin & Happ & Heq)].
      - congruence.
      - simpl in Hin. congruence.
      - exfalso. exact (Hnone it Hin Happ Heq). }
    destruct Hname as [<-|[<-|[]]]; fold SO SI.
    + rewrite Hso. unfold dict_get_default. fold SO in Habs. now rewrite Habs.
    + rewrite Hsi. unfold dict_get_default. fold SI in Habs. now rewrite Habs.
  - unfold get_spring_counts. simpl. rewrite Hcoil. reflexivity.
Qed.

Lemma get_spring_counts_coil_witness :
  exists counts,
    get_spring_counts "VB" (Some " coil ") vb_master = Ok counts /\
    dict_get SO counts = Some 2%Z /\ dict_get SI counts = Some 2%Z /\
    dict_get "Primary" counts = Some 4%Z.
Proof.
  destruct (@get_spring_counts_coil "VB" (Some " coil ") vb_master eq_refl)
    as (Hret & Hval & _).
  destruct Hret as [counts Hc].
  - repeat constructor; discriminate.
  - exists counts. split; [exact Hc|].
    destruct (Hval counts Hc) as (base & Hb & Hso & Hsi & Hk & _).
    vm_compute in Hb. injection Hb as <-.
    rewrite Hso, Hsi, Hk by discriminate. repeat split; reflexivity.
Defined.

(** C2, as stated, fails: a secondary type that contains both "AIR" and
    "COIL" gets the two COIL defaults, whose names contain "secondary",
    from empty master data. *)
Lemma air_with_coil_has_secondary :
  ~ (forall coach_type secondary_type sts counts k,
       contains "AIR" (secondary_type_normalized secondary_type) = true ->
       get_spring_counts coach_type secondary_type sts = Ok counts ->
       dict_mem k counts = true ->
       contains "secondary" (lower k) = false).
Proof.
  intros H.
  assert (Hrun : get_spring_counts "VB" (Some "Air + Coil") []
                 = Ok [(SO, 2%Z); (SI, 2%Z)]) by reflexivity.
  specialize (H "VB" (Some "Air + Coil") [] _ SO eq_refl Hrun eq_refl).
  discriminate H.
Qed.

(** C2 (amended): when the normalised secondary type contains "AIR", a
    call that returns has no position name containing "secondary"
    (case-insensitively) other than the COIL defaults: such a name occurs
    only if the normalised type also contains "COIL", and is then
    "Secondary Outer" or "Secondary Inner" with quantity 2.  The call
    returns whenever no definition carries a null [max_per_bogie]. *)
Theorem get_spring_counts_air coach_type secondary_type sts :
  contains "AIR" (secondary_type_normalized secondary_type) = true ->
  (Forall (fun it => max_per_bogie it <> Null) sts ->
   exists counts, get_spring_counts coach_type secondary_type sts = Ok counts) /\
  (forall counts k,
     get_spring_counts coach_type secondary_type sts = Ok counts ->
     dict_mem k counts = true ->
     contains "secondary" (lower k) = true ->
     contains "COIL" (secondary_type_normalized secondary_type) = true /\
     In k secondary_names /\ dict_get k counts = Some 2%Z).
Proof.
  intros Hair. split; [apply get_spring_counts_returns|].
  intros counts k Hget Hmem Hsec. unfold get_spring_counts in Hget.
  destruct (spring_loop coach_type _ sts []) as [base|e] eqn:Hloop;
    simpl in Hget; [|discriminate].
  assert (Hbase : forall k', contains "secondary" (lower k') = true ->
                             dict_get k' base = None).
  { intros k' Hk'. destruct (dict_get k' base) eqn:E; auto.
    destruct (@spring_loop_air _ _ _ _ _ Hair Hloop k') as [Hin|Hno].
    - congruence.
    - simpl in Hin. congruence.
    - congruence. }
  apply dict_mem_get in Hmem.
  destruct (contains "COIL" _) eqn:Hcoil; inversion Hget; subst counts.
  - split; [reflexivity|].
    destruct (coil_defaults_get base) as (Hso & Hsi & Hother).
    destruct (String.eqb k SO) eqn:E1.
    { apply String.eqb_eq in E1. subst k. split; [now left|].
      rewrite Hso. unfold dict_get_default. now rewrite (Hbase SO eq_refl). }
    destruct (String.eqb k SI) eqn:E2.
    { apply String.eqb_eq in E2. subst k. split; [right; now left|].
      rewrite Hsi. unfold dict_get_default. now rewrite (Hbase SI eq_refl). }
    apply String.eqb_neq in E1, E2.
    rewrite (Hother k E1 E2) in Hmem. now rewrite (Hbase k Hsec) in Hmem.
  - now rewrite (Hbase k Hsec) in Hmem.
Qed.

Lemma get_spring_counts_air_witness :
  get_spring_counts "VB" (Some "Air Spring") vb_master = Ok [("Primary", 4%Z)] /\
  (dict_mem SO [("Primary", 4%Z)] = true -> False).
Proof.
  split; [reflexivity|].
  intros Hmem.
  destruct (@get_spring_counts_air "VB" (Some "Air Spring") vb_master eq_refl)
    as [_ Hno].
  destruct (Hno [("Primary", 4%Z)] SO eq_refl Hmem eq_refl) as [Hcoil _].
  discriminate Hcoil.
Defined.

(** C7, as stated, fails: for a coach type no definition applies to, a
    secondary type containing "COIL" still yields the two COIL defaults. *)
Lemma unknown_coach_coil_not_empty :
  ~ (forall coach_type secondary_type sts,
       (forall it, In it sts -> applicable coach_type it = false) ->
       get_spring_counts coach_type secondary_type sts = Ok []).
Proof.
  intros H.
  assert (Hun : forall it, In it vb_master -> applicable "XX" it = false).
  { intros it [<-|[<-|[]]]; reflexivity. }
  specialize (H "XX" (Some "Coil") vb_master Hun).
  discriminate H.
Qed.

(** C7 (amended): for a coach type contained in no definition's coach
    types the call raises nothing and returns the empty configuration,
    unless the normalised secondary type contains "COIL", in which case it
    returns exactly "Secondary Outer" -> 2 and "Secondary Inner" -> 2. *)
Theorem get_spring_counts_unknown coach_type secondary_type sts :
  (forall it, In it sts -> applicable coach_type it = false) ->
  get_spring_counts coach_type secondary_type sts =
  Ok (if contains "COIL" (secondary_type_normalized secondary_type)
      then [(SO, 2%Z); (SI, 2%Z)] else []).
Proof.
  intros Hun. unfold get_spring_counts.
  rewrite (spring_loop_unknown _ _ _ _ Hun). simpl.
  now destruct (contains "COIL" _).
Qed.

Lemma get_spring_counts_unknown_witness :
  get_spring_counts "XX" (Some "Air Spring") vb_master = Ok [] /\
  get_spring_counts "XX" None
    [ {| coach_types := Null; spring_type := Null; max_per_bogie := Null |} ] = Ok [].
Proof.
  split.
  - apply (@get_spring_counts_unknown "XX" (Some "Air Spring") vb_master).
    intros it [<-|[<-|[]]]; reflexivity.
  - apply (@get_spring_counts_unknown "XX" None).
    intros it [<-|[]]; reflexivity.
Defined.

(* ================================================================== *)
(** ** Properties of the bogie partition *)
(* ================================================================== *)

Lemma partition_fold rows b1 b2 :
  fold_left partition_step rows (b1, b2) =
  (b1 ++ map make_defect (filter (fun r => negb (to_bogie2 r)) rows),
   b2 ++ map make_defect (filter to_bogie2 rows)).
Proof.
  revert b1 b2. induction rows as [|r rows IH]; intros b1 b2; simpl.
  - now rewrite !app_nil_r.
  - destruct (to_bogie2 r); simpl; rewrite IH, <- app_assoc; reflexivity.
Qed.

Lemma filter_split_length {A : Type} (p : A -> bool) (l : list A) :
  length (filter (fun x => negb (p x)) l) + length (filter p l) = length l.
Proof.
  induction l as [|x l IH]; simpl; auto.
  destruct (p x); simpl; lia.
Qed.

(** C3: the partition loop never fails and sends every row to exactly one
    list, in input order: the rows whose bogie number, converted to text
    and trimmed, is "2" make up the bogie-2 list and all others the bogie-1
    list, so the two lengths add up to the number of rows; a missing, null
    or blank bogie number goes to bogie 1. *)
Theorem partition_defects_total_exclusive (coach_failures : list failure_row) :
  fst (partition_defects coach_failures) =
    map make_defect (filter (fun r => negb (to_bogie2 r)) coach_failures) /\
  snd (partition_defects coach_failures) =
    map make_defect (filter to_bogie2 coach_failures) /\
  length (fst (partition_defects coach_failures))
    + length (snd (partition_defects coach_failures)) = length coach_failures /\
  (forall row, to_bogie2 row = true <->
               strip (str (or_default (PStr "1") (bogie_number row))) = "2") /\
  (forall row,
     bogie_number row = None \/ bogie_number row = Some PNone \/
     (exists s, bogie_number row = Some (PStr s) /\ strip s = EmptyString) ->
     to_bogie2 row = false).
Proof.
  unfold partition_defects. rewrite partition_fold. simpl.
  repeat split.
  - rewrite !length_map. apply filter_split_length.
  - unfold to_bogie2, bogie_num. apply String.eqb_eq.
  - unfold to_bogie2, bogie_num. apply String.eqb_eq.
  - intros row [H|[H|(s & H & Hs)]]; unfold to_bogie2, bogie_num;
      rewrite H; simpl; try reflexivity.
    now rewrite Hs.
Qed.

Lemma partition_defects_total_exclusive_witness :
  length (fst (partition_defects three_failures))
    + length (snd (partition_defects three_failures)) = 3 /\
  to_bogie2 (failure None) = false /\
  to_bogie2 (failure (Some (PStr " 2 "))) = true.
Proof.
  destruct (partition_defects_total_exclusive three_failures)
    as (_ & _ & Hlen & Hiff & Hblank).
  split; [exact Hlen|]. split.
  - apply Hblank. now left.
  - apply Hiff. reflexivity.
Defined.

(** The end-to-end example: bogie numbers "2", "" and "1". *)
Example partition_three_failures :
  length (fst (partition_defects three_failures)) = 2 /\
  length (snd (partition_defects three_failures)) = 1.
Proof. split; reflexivity. Qed.

(* ================================================================== *)
(** ** Properties of [build_default_inspection_rows] *)
(* ================================================================== *)

Section FoldSet.
Variables (A V : Type) (g : A -> string) (v : V).

Lemma fold_set_get xs (r : dict V) k :
  dict_get k (fold_left (fun r x => dict_set (g x) v r) xs r) =
  if existsb (fun x => String.eqb k (g x)) xs then Some v else dict_get k r.
Proof.
  revert r. induction xs as [|x xs IH]; intros r; simpl; auto.
  rewrite IH, dict_get_set.
  destruct (String.eqb k (g x)); simpl; auto.
  now destruct (existsb _ xs).
Qed.



End FoldSet.

Lemma existsb_position_key k (stypes : list string) :
  existsb (fun x => String.eqb k (position_key x)) stypes = true <->
  In k (map position_key stypes).
Proof.
  rewrite existsb_exists, in_map_iff. split.
  - intros (x & Hin & E). apply String.eqb_eq in E. eauto.
  - intros (x & E & Hin). exists x. split; auto. subst. apply String.eqb_refl.
Qed.

Lemma build_rows_map activities sc dv :
  build_default_inspection_rows activities sc dv = map (build_row sc dv) activities.
Proof.
  unfold build_default_inspection_rows.
  enough (H : forall acc, fold_left (fun rows act => rows ++ [build_row sc dv act])
                            activities acc = acc ++ map (build_row sc dv) activities)
    by apply (H []).
  induction activities as [|a l IH]; intros acc; simpl.
  - now rewrite app_nil_r.
  - rewrite IH, <- app_assoc. reflexivity.
Qed.

Lemma build_row_get sc dv act k :
  dict_get k (build_row sc dv act) =
  if existsb (fun x => String.eqb k (position_key x)) (dict_keys sc)
  then Some (PStr dv)
  else dict_get k
         [("activity_id", dict_get_default "id" PNone act);
          ("activity", dict_get_default "activity_text" (PStr EmptyString) act);
          ("remarks", PStr EmptyString)].
Proof. unfold build_row. apply fold_set_get. Qed.

Lemma build_row_position sc dv act stype :
  In stype (dict_keys sc) ->
  dict_get (position_key stype) (build_row sc dv act) = Some (PStr dv).
Proof.
  intros Hin. rewrite build_row_get.
  assert (H : existsb (fun x => String.eqb (position_key stype) (position_key x))
                (dict_keys sc) = true).
  { apply existsb_position_key. now apply in_map. }
  now rewrite H.
Qed.

Lemma build_row_untouched sc dv act k :
  ~ In k (map position_key (dict_keys sc)) ->
  dict_get k (build_row sc dv act) =
  dict_get k
    [("activity_id", dict_get_default "id" PNone act);
     ("activity", dict_get_default "activity_text" (PStr EmptyString) act);
     ("remarks", PStr EmptyString)].
Proof.
  intros Hno. rewrite build_row_get.
  destruct (existsb _ (dict_keys sc)) eqn:E; auto.
  apply existsb_position_key in E. contradiction.
Qed.

(** C5, as stated, fails: a position named "Remarks" has the key
    "remarks", and the row's remarks then hold the default status. *)
Lemma remarks_position_overwrites_remarks :
  ~ (forall activities sc dv r,
       In r (build_default_inspection_rows activities sc dv) ->
       dict_get "remarks" r = Some (PStr EmptyString)).
Proof.
  intros H.
  specialize (H [[("id", PInt 1)]] remarks_counts "Satisfactory"
                [("activity_id", PInt 1); ("activity", PStr EmptyString);
                 ("remarks", PStr "Satisfactory")]).
  simpl in H. specialize (H (or_introl eq_refl)). discriminate H.
Qed.

(** C5 (amended): the builder returns one row per activity, in input
    order; the keys of a row are the three row fields together with the
    position keys of the configuration (its names lower-cased, spaces
    removed); every position key holds the default status; and remarks are
    empty, the activity fields those of the activity, for each field that
    is not itself the key of a position. *)
Theorem build_default_inspection_rows_spec activities sc dv :
  build_default_inspection_rows activities sc dv = map (build_row sc dv) activities /\
  length (build_default_inspection_rows activities sc dv) = length activities /\
  forall act,
    (forall k, In k (dict_keys (build_row sc dv act)) <->
               In k row_fields \/ In k (map position_key (dict_keys sc))) /\
    (forall stype, In stype (dict_keys sc) ->
       dict_get (position_key stype) (build_row sc dv act) = Some (PStr dv)) /\
    (~ In "remarks" (map position_key (dict_keys sc)) ->
       dict_get "remarks" (build_row sc dv act) = Some (PStr EmptyString)) /\
    (~ In "activity" (map position_key (dict_keys sc)) ->
       dict_get "activity" (build_row sc dv act)
       = Some (dict_get_default "activity_text" (PStr EmptyString) act)) /\
    (~ In "activity_id" (map position_key (dict_keys sc)) ->
       dict_get "activity_id" (build_row sc dv act)
       = Some (dict_get_default "id" PNone act)).
Proof.
  split; [apply build_rows_map|]. split.
  { rewrite build_rows_map. apply length_map. }
  intros act. split; [|split; [|repeat split]].
  - intros k. rewrite <- dict_get_In, build_row_get, <- existsb_position_key.
    destruct (existsb _ (dict_keys sc)).
    + split; [auto | congruence].
    + rewrite dict_get_In. simpl. unfold row_fields. simpl.
      split; [tauto | intros [H|H]; [tauto | discriminate]].
  - intros stype. apply build_row_position.
  - intros Hno. now rewrite build_row_untouched.
  - intros Hno. now rewrite build_row_untouched.
  - intros Hno. now rewrite build_row_untouched.
Qed.

Lemma build_default_inspection_rows_spec_witness :
  dict_get "remarks"
    (build_row [("Primary", 4%Z); (SO, 2%Z)] "Done" [("id", PInt 1)])
  = Some (PStr EmptyString).
Proof.
  destruct (build_default_inspection_rows_spec [] [("Primary", 4%Z); (SO, 2%Z)] "Done")
    as (_ & _ & Hrow).
  destruct (Hrow [("id", PInt 1)]) as (_ & _ & Hrem & _).
  apply Hrem. simpl. intros [H|[H|[]]]; discriminate H.
Defined.



(* ================================================================== *)
(** ** Properties of [clean_inspections] *)
(* ================================================================== *)

Lemma to_record_get (r : dict pyval) k :
  dict_get k (map (fun kv => (fst kv, fillna_empty (snd kv))) r) =
  option_map fillna_empty (dict_get k r).
Proof.
  induction r as [|[k' v'] r IH]; simpl; auto.
  now destruct (String.eqb k k').
Qed.

Lemma to_record_keys (r : dict pyval) :
  dict_keys (map (fun kv => (fst kv, fillna_empty (snd kv))) r) = dict_keys r.
Proof. unfold dict_keys. rewrite map_map. reflexivity. Qed.

Section CleanRecord.
Variable default_val : string.

Lemma clean_fold_get items (r : dict pyval) k :
  dict_get k
    (fold_left (fun r' kv => if reverts kv then dict_set (fst kv) (PStr default_val) r'
                             else r') items r) =
  if existsb (fun kv => String.eqb k (fst kv) && reverts kv) items
  then Some (PStr default_val) else dict_get k r.
Proof.
  revert r. induction items as [|kv items IH]; intros r; simpl; auto.
  rewrite IH. destruct (reverts kv); simpl.
  - rewrite dict_get_set. destruct (String.eqb k (fst kv)); simpl; auto.
    now destruct (existsb _ items).
  - now rewrite andb_false_r.
Qed.

Lemma clean_fold_keys items (r : dict pyval) :
  (forall kv, In kv items -> In (fst kv) (dict_keys r)) ->
  dict_keys
    (fold_left (fun r' kv => if reverts kv then dict_set (fst kv) (PStr default_val) r'
                             else r') items r) = dict_keys r.
Proof.
  revert r. induction items as [|kv items IH]; intros r Hin; simpl; auto.
  assert (Hk : dict_mem (fst kv) r = true).
  { apply dict_mem_get, dict_get_In, Hin. now left. }
  destruct (reverts kv).
  - rewrite IH; rewrite dict_keys_set, Hk; auto.
    intros kv' H'. apply Hin. now right.
  - apply IH. intros kv' H'. apply Hin. now right.
Qed.

Lemma existsb_unique_key (r : dict pyval) k v :
  NoDup (dict_keys r) -> dict_get k r = Some v ->
  existsb (fun kv => String.eqb k (fst kv) && reverts kv) r = reverts (k, v).
Proof.
  induction r as [|[k' v'] r IH]; simpl; intros Hnd Hget; [discriminate|].
  inversion Hnd as [|? ? Hnotin Hnd']; subst.
  destruct (String.eqb k k') eqn:E; simpl.
  - apply String.eqb_eq in E. subst k'. injection Hget as ->.
    destruct (reverts (k, v)) eqn:R; simpl; auto.
    apply not_true_is_false. intros Hex. apply existsb_exists in Hex.
    destruct Hex as ([k2 v2] & Hin & Hc). apply andb_prop in Hc.
    destruct Hc as [Hk _]. apply String.eqb_eq in Hk. simpl in Hk. subst k2.
    apply Hnotin. change k with (fst (k, v2)). now apply in_map.
  - now apply IH.
Qed.

Lemma clean_record_get (r : dict pyval) k v :
  NoDup (dict_keys r) -> dict_get k r = Some v ->
  dict_get k (clean_record default_val r) =
  Some (if reverts (k, v) then PStr default_val else v).
Proof.
  intros Hnd Hget. unfold clean_record.
  rewrite clean_fold_get, (@existsb_unique_key r k v Hnd Hget).
  now destruct (reverts (k, v)).
Qed.

Lemma clean_record_keys (r : dict pyval) :
  dict_keys (clean_record default_val r) = dict_keys r.
Proof.
  unfold clean_record. apply (clean_fold_keys r r).
  intros kv Hin. now apply in_map.
Qed.

(** The cells of one finalised record, from the cells the editor returned. *)
Lemma clean_inspections_cells df i (r : dict pyval) :
  nth_error df i = Some r -> NoDup (dict_keys r) ->
  exists r',
    nth_error (clean_inspections (Some df) default_val) i = Some r' /\
    dict_keys r' = dict_keys r /\
    forall k v, dict_get k r = Some v ->
      dict_get k r' =
      Some (if in_list k kept_fields then fillna_empty v
            else if is_blank v then PStr default_val else v).
Proof.
  intros Hnth Hnd. unfold clean_inspections, to_records.
  exists (clean_record default_val
            (map (fun kv => (fst kv, fillna_empty (snd kv))) r)).
  split; [now apply map_nth_error, map_nth_error|]. split.
  - now rewrite clean_record_keys, to_record_keys.
  - intros k v Hget.
    rewrite (@clean_record_get _ k (fillna_empty v)).
    + unfold reverts, is_blank. cbn [fst snd].
      destruct (in_list k kept_fields); cbn [negb].
      * now rewrite andb_false_r.
      * rewrite andb_true_r.
        destruct (pyval_eqb (fillna_empty v) (PStr EmptyString)) eqn:E; auto.
        destruct v; simpl in *; try discriminate; reflexivity.
    + now rewrite to_record_keys.
    + rewrite to_record_get, Hget. reflexivity.
Qed.

End CleanRecord.

(** C6: at finalize time every record keeps its columns; a spring-position
    cell that is blank (empty, or missing and so filled with the empty
    string) becomes "Satisfactory" in a visual checklist and "Done" in a
    must-do checklist, a cell with any other value is kept verbatim, and
    the activity, remarks and activity_id fields never take the default. *)
Theorem finalize_merge_rule (df : list (dict pyval)) i r :
  nth_error df i = Some r -> NoDup (dict_keys r) ->
  exists rv rm,
    nth_error (clean_visual (Some df)) i = Some rv /\
    nth_error (clean_must_do (Some df)) i = Some rm /\
    dict_keys rv = dict_keys r /\ dict_keys rm = dict_keys r /\
    forall k v, dict_get k r = Some v ->
      (in_list k kept_fields = true ->
         dict_get k rv = Some (fillna_empty v) /\ dict_get k rm = Some (fillna_empty v)) /\
      (in_list k kept_fields = false -> is_blank v = true ->
         dict_get k rv = Some (PStr "Satisfactory") /\ dict_get k rm = Some (PStr "Done")) /\
      (in_list k kept_fields = false -> is_blank v = false ->
         dict_get k rv = Some v /\ dict_get k rm = Some v).
Proof.
  intros Hnth Hnd.
  destruct (clean_inspections_cells "Satisfactory" df i Hnth Hnd) as (rv & Hv & Hkv & Hcv).
  destruct (clean_inspections_cells "Done" df i Hnth Hnd) as (rm & Hm & Hkm & Hcm).
  exists rv, rm. repeat split; auto.
  - specialize (Hcv k v H). now rewrite H0 in Hcv.
  - specialize (Hcm k v H). now rewrite H0 in Hcm.
  - specialize (Hcv k v H). now rewrite H0, H1 in Hcv.
  - specialize (Hcm k v H). now rewrite H0, H1 in Hcm.
  - specialize (Hcv k v H). now rewrite H0, H1 in Hcv.
  - specialize (Hcm k v H). now rewrite H0, H1 in Hcm.
Qed.

Lemma finalize_merge_rule_witness :
  exists rv rm,
    nth_error (clean_visual (Some [edited_row])) 0 = Some rv /\
    nth_error (clean_must_do (Some [edited_row])) 0 = Some rm /\
    dict_get "primary" rv = Some (PStr "Satisfactory") /\
    dict_get "secondaryouter" rm = Some (PStr "Done") /\
    dict_get "secondaryinner" rv = Some (PStr "Unsatisfactory") /\
    dict_get "remarks" rv = Some (PStr EmptyString).
Proof.
  assert (Hnd : NoDup (dict_keys edited_row)).
  { simpl. repeat constructor; simpl; intuition discriminate. }
  destruct (@finalize_merge_rule [edited_row] 0 edited_row eq_refl Hnd)
    as (rv & rm & Hv & Hm & _ & _ & Hcells).
  exists rv, rm. repeat split; auto.
  - destruct (Hcells "primary" (PStr EmptyString) eq_refl) as (_ & Hb & _).
    apply (Hb eq_refl eq_refl).
  - destruct (Hcells "secondaryouter" PNone eq_refl) as (_ & Hb & _).
    apply (Hb eq_refl eq_refl).
  - destruct (Hcells "secondaryinner" (PStr "Unsatisfactory") eq_refl) as (_ & _ & Hk).
    apply (Hk eq_refl eq_refl).
  - destruct (Hcells "remarks" (PStr EmptyString) eq_refl) as (Hf & _).
    apply (Hf eq_refl).
Defined.

(* ================================================================== *)
(** ** Properties of [normalize_sig_date] *)
(* ================================================================== *)

(** C4, as stated, fails where the interpreter's parser accepts a text
    shorter than ten characters: on the reference implementation the
    compact date "20240115" is neither ten characters long nor longer,
    yet it comes back as a full ISO datetime, not unchanged. *)
Lemma compact_date_becomes_datetime :
  ~ (forall s,
       strip s <> EmptyString ->
       ~ (String.length (strip s) = 10 /\
          exists d, IsoFormat.fromisoformat (strip s) = Ok d) ->
       ~ (10 < String.length (strip s) /\
          exists d, IsoFormat.fromisoformat (strip s) = Ok d) ->
       IsoFormat.normalize (Some s) = Some (strip s)).
Proof.
  intros H.
  assert (Hrun : IsoFormat.normalize (Some "20240115") = Some "2024-01-15T00:00:00")
    by reflexivity.
  rewrite (H "20240115") in Hrun.
  - discriminate Hrun.
  - discriminate.
  - intros [Hlen _]. discriminate Hlen.
  - intros [Hlen _]. vm_compute in Hlen. lia.
Qed.

(** C4 (amended): [normalize_sig_date] is total and never raises.  Absent
    text and text that is empty once trimmed give [None]; trimmed text of
    exactly ten characters that the date parser accepts gives the ISO
    calendar date; trimmed text of any other length that the parser accepts
    gives the full ISO datetime; text the parser rejects is returned
    trimmed and otherwise unchanged. *)
Theorem normalize_sig_date_cases (datetime date : Type)
  (fromisoformat : string -> result datetime) (to_date : datetime -> date)
  (date_isoformat : date -> string) (datetime_isoformat : datetime -> string) :
  normalize_sig_date fromisoformat to_date date_isoformat datetime_isoformat None = None /\
  (forall s, strip s = EmptyString ->
     normalize_sig_date fromisoformat to_date date_isoformat datetime_isoformat (Some s)
     = None) /\
  (forall s d, strip s <> EmptyString -> String.length (strip s) = 10 ->
     fromisoformat (strip s) = Ok d ->
     normalize_sig_date fromisoformat to_date date_isoformat datetime_isoformat (Some s)
     = Some (date_isoformat (to_date d))) /\
  (forall s d, strip s <> EmptyString -> String.length (strip s) <> 10 ->
     fromisoformat (strip s) = Ok d ->
     normalize_sig_date fromisoformat to_date date_isoformat datetime_isoformat (Some s)
     = Some (datetime_isoformat d)) /\
  (forall s e, strip s <> EmptyString -> fromisoformat (strip s) = Raise e ->
     normalize_sig_date fromisoformat to_date date_isoformat datetime_isoformat (Some s)
     = Some (strip s)).
Proof.
  unfold normalize_sig_date. repeat split.
  - intros s Hs. rewrite Hs. reflexivity.
  - intros s d Hs Hlen Hd. apply String.eqb_neq in Hs. rewrite Hs, Hlen, Hd. reflexivity.
  - intros s d Hs Hlen Hd. apply String.eqb_neq in Hs. apply Nat.eqb_neq in Hlen.
    rewrite Hs, Hlen, Hd. reflexivity.
  - intros s e Hs He. apply String.eqb_neq in Hs. rewrite Hs, He.
    now destruct (Nat.eqb _ 10).
Qed.

Lemma normalize_sig_date_cases_witness :
  IsoFormat.normalize (Some "2024-01-15") = Some "2024-01-15" /\
  IsoFormat.normalize (Some EmptyString) = None /\
  IsoFormat.normalize (Some "not-a-date") = Some "not-a-date" /\
  IsoFormat.normalize (Some " 2024-01-15 09:05:00 ") = Some "2024-01-15T09:05:00".
Proof.
  destruct (normalize_sig_date_cases IsoFormat.fromisoformat IsoFormat.on
              IsoFormat.date_isoformat IsoFormat.datetime_isoformat)
    as (_ & Hempty & Hdate & Hlong & Hfail).
  unfold IsoFormat.normalize. split; [|split; [|split]].
  - apply (Hdate "2024-01-15"
             {| IsoFormat.on := {| IsoFormat.year := 2024; IsoFormat.month := 1;
                                   IsoFormat.day := 15 |};
                IsoFormat.hour := 0; IsoFormat.minute := 0; IsoFormat.second := 0 |});
      [discriminate | reflexivity | reflexivity].
  - apply (Hempty EmptyString). reflexivity.
  - apply (Hfail "not-a-date" ValueError); [discriminate | reflexivity].
  - apply (Hlong " 2024-01-15 09:05:00 "
             {| IsoFormat.on := {| IsoFormat.year := 2024; IsoFormat.month := 1;
                                   IsoFormat.day := 15 |};
                IsoFormat.hour := 9; IsoFormat.minute := 5; IsoFormat.second := 0 |});
      [discriminate | discriminate | reflexivity].
Defined.

(* ================================================================== *)
(** ** Properties of the report story *)
(* ================================================================== *)

Lemma defects_combined_map c2n l1 l2 (b1 b2 : list (dict pyval)) :
  defects_combined c2n l1 l2 b1 b2 =
  map (defect_row c2n l1) b1 ++ map (defect_row c2n l2) b2.
Proof.
  unfold defects_combined.
  assert (H : forall l ds acc,
             fold_left (fun acc d => acc ++ [defect_row c2n l d]) ds acc
             = acc ++ map (defect_row c2n l) ds).
  { intros l ds. induction ds as [|d ds IH]; intros acc; simpl.
    - now rewrite app_nil_r.
    - rewrite IH, <- app_assoc. reflexivity. }
  rewrite !H. reflexivity.
Qed.

Lemma with_signature_images_tail image_readable story s1 s2 :
  exists tail, with_signature_images image_readable story s1 s2 = story ++ tail.
Proof.
  unfold with_signature_images.
  destruct (has_bytes s1 || has_bytes s2); [|exists []; now rewrite app_nil_r].
  destruct (image_cell image_readable s1) as [c0|e]; simpl;
    [|exists []; now rewrite app_nil_r].
  destruct (image_cell image_readable s2) as [c1|e]; simpl;
    [|exists []; now rewrite app_nil_r].
  eexists. reflexivity.
Qed.

Lemma image_fails_raises image_readable s :
  image_fails image_readable s = true ->
  has_bytes s = true /\ image_cell image_readable s = Raise LibraryError.
Proof.
  unfold image_fails, image_cell, RLImage. destruct s as [data|]; [|discriminate].
  intros H. apply andb_prop in H. destruct H as [Hb Hr].
  apply negb_true_iff in Hr. rewrite Hb, Hr. auto.
Qed.




(** What the [try ... except Exception: pass] achieves: when the image
    constructor rejects a supplied signature image the image row is left
    out and the layout receives the story without images. *)
Lemma constructor_failure_is_caught image_readable doc_build record c2n s1 s2 :
  image_fails image_readable s1 = true \/ image_fails image_readable s2 = true ->
  build_story image_readable record c2n s1 s2 = story_body record c2n /\
  generate_inspection_pdf image_readable doc_build record c2n s1 s2 =
    doc_build (story_body record c2n).
Proof.
  intros Hfail.
  assert (Hstory : build_story image_readable record c2n s1 s2 = story_body record c2n).
  { unfold build_story, with_signature_images.
    destruct Hfail as [H|H]; apply image_fails_raises in H; destruct H as [Hb Hr].
    - rewrite Hb, Hr. reflexivity.
    - rewrite Hb, orb_true_r, Hr.
      now destruct (image_cell image_readable s1). }
  split; [exact Hstory|].
  unfold generate_inspection_pdf. now rewrite Hstory.
Qed.

(** The story once every supplied signature image has been constructed. *)
Lemma story_with_image_row image_readable record c2n s1 s2 :
  has_bytes s1 || has_bytes s2 = true ->
  image_fails image_readable s1 = false ->
  image_fails image_readable s2 = false ->
  build_story image_readable record c2n s1 s2 =
  story_body record c2n ++
  [ Spacer 1 6;
    Table [[cell_or_blank (if has_bytes s1
                           then option_map (fun d => CImage d 45 20) s1 else None);
            label EmptyString;
            cell_or_blank (if has_bytes s2
                           then option_map (fun d => CImage d 45 20) s2 else None);
            label EmptyString]]
      [mm 50; mm 70; mm 50; mm 70] None ].
Proof.
  intros Hb H1 H2. unfold build_story, with_signature_images. rewrite Hb.
  assert (Hcell : forall s, image_fails image_readable s = false ->
            image_cell image_readable s =
            Ok (if has_bytes s then option_map (fun d => CImage d 45 20) s else None)).
  { intros [data|] Hs; simpl in *; auto.
    unfold RLImage.
    destruct (negb (String.eqb data EmptyString)); simpl in *; auto.
    apply negb_false_iff in Hs. now rewrite Hs. }
  now rewrite (Hcell s1 H1), (Hcell s2 H2).
Qed.

(** C9: the claim fails on the code.  The [try] guards the construction
    of the images only; [doc.build(story)] runs after it, unguarded.  When
    every supplied image passes its constructor, the image row is part of
    the story, and an exception the layout raises on that story, as it
    does when it cannot decode an image it has to draw, leaves
    [generate_inspection_pdf] as it is: no document is returned. *)
Theorem image_failure_at_build_aborts image_readable doc_build record c2n s1 s2 e :
  has_bytes s1 || has_bytes s2 = true ->
  image_fails image_readable s1 = false ->
  image_fails image_readable s2 = false ->
  doc_build
    (story_body record c2n ++
     [ Spacer 1 6;
       Table [[cell_or_blank (if has_bytes s1
                              then option_map (fun d => CImage d 45 20) s1 else None);
               label EmptyString;
               cell_or_blank (if has_bytes s2
                              then option_map (fun d => CImage d 45 20) s2 else None);
               label EmptyString]]
         [mm 50; mm 70; mm 50; mm 70] None ]) = Raise e ->
  generate_inspection_pdf image_readable doc_build record c2n s1 s2 = Raise e.
Proof.
  intros Hb H1 H2 Hraise. unfold generate_inspection_pdf.
  now rewrite (story_with_image_row image_readable record c2n s1 s2 Hb H1 H2).
Qed.

Lemma image_failure_at_build_aborts_witness :
  generate_inspection_pdf png_only decoding_build (sample_report [] []) sample_codes
    (Some "PNG cut off after its header") None = Raise LibraryError /\
  generate_inspection_pdf png_only decoding_build (sample_report [] []) sample_codes
    None None = Ok "27".
Proof.
  split; [|reflexivity].
  apply (@image_failure_at_build_aborts png_only decoding_build (sample_report [] [])
           sample_codes (Some "PNG cut off after its header") None LibraryError);
    reflexivity.
Defined.

(* ================================================================== *)
(** ** Further properties of [get_spring_counts] *)
(* ================================================================== *)

Unset Implicit Arguments.

Lemma in_list_In x xs : in_list x xs = true <-> In x xs.
Proof.
  unfold in_list. rewrite existsb_exists. split.
  - intros (y & Hin & E). apply String.eqb_eq in E. now subst.
  - intros Hin. exists x. split; auto. apply String.eqb_refl.
Qed.

Lemma dict_mem_in_list (V : Type) k (d : dict V) :
  dict_mem k d = in_list k (dict_keys d).
Proof.
  unfold dict_mem. induction d as [|[k' v'] d IH]; simpl; auto.
  destruct (String.eqb k k'); simpl; auto.
Qed.

Lemma first_occurrences_app seen a b :
  first_occurrences seen (a ++ b) =
  first_occurrences seen a ++ first_occurrences (seen ++ first_occurrences seen a) b.
Proof.
  revert seen. induction a as [|x a IH]; intros seen; simpl.
  - now rewrite app_nil_r.
  - destruct (in_list x seen); simpl; rewrite IH; auto.
    now rewrite <- app_assoc.
Qed.

Lemma first_occurrences_NoDup seen l :
  NoDup seen -> NoDup (seen ++ first_occurrences seen l).
Proof.
  revert seen. induction l as [|x l IH]; intros seen Hnd; simpl.
  - now rewrite app_nil_r.
  - destruct (in_list x seen) eqn:E; auto.
    replace (seen ++ x :: first_occurrences (seen ++ [x]) l)
      with ((seen ++ [x]) ++ first_occurrences (seen ++ [x]) l)
      by now rewrite <- app_assoc.
    apply IH. apply NoDup_app; auto.
    + repeat constructor. simpl. tauto.
    + intros y Hy [<-|[]].
      apply in_list_In in Hy. congruence.
Qed.

Lemma dict_set_keys_first (V : Type) k (v : V) (d : dict V) :
  dict_keys (dict_set k v d) = dict_keys d ++ first_occurrences (dict_keys d) [k].
Proof.
  rewrite dict_keys_set, dict_mem_in_list. simpl.
  destruct (in_list k (dict_keys d)); auto. now rewrite app_nil_r.
Qed.

Lemma spring_step_kept coach_type norm counts it :
  spring_step coach_type norm counts it =
  if kept coach_type norm it
  then n <- max_per_bogie_int it ;; Ok (dict_set (spring_name_of it) n counts)
  else Ok counts.
Proof.
  unfold spring_step, kept. destruct (applicable coach_type it); simpl; auto.
  destruct (contains "AIR" norm && _); reflexivity.
Qed.

Lemma spring_loop_key_order coach_type norm sts counts base :
  spring_loop coach_type norm sts counts = Ok base ->
  dict_keys base =
  dict_keys counts ++
  first_occurrences (dict_keys counts)
    (map spring_name_of (filter (kept coach_type norm) sts)).
Proof.
  revert counts. induction sts as [|it rest IH]; intros counts Hloop; simpl in *.
  - injection Hloop as <-. now rewrite app_nil_r.
  - rewrite spring_step_kept in Hloop.
    destruct (kept coach_type norm it); simpl in Hloop.
    + destruct (max_per_bogie_int it) as [n|e]; simpl in Hloop; [|discriminate].
      rewrite (IH _ Hloop), dict_set_keys_first, <- app_assoc. f_equal.
      symmetry.
      apply (first_occurrences_app (dict_keys counts) [spring_name_of it]
               (map spring_name_of (filter (kept coach_type norm) rest))).
    + now apply IH.
Qed.

Lemma coil_defaults_key_order (counts : dict Z) :
  dict_keys (coil_defaults counts) =
  dict_keys counts ++ first_occurrences (dict_keys counts) secondary_names.
Proof.
  unfold coil_defaults. generalize secondary_names as names. intros names.
  revert counts. induction names as [|n names IH]; intros counts; simpl.
  - now rewrite app_nil_r.
  - rewrite IH. rewrite dict_mem_in_list.
    destruct (in_list n (dict_keys counts)) eqn:E; auto.
    rewrite dict_set_keys_first. simpl. rewrite E. now rewrite <- app_assoc.
Qed.

(** X1: the keys of a returned configuration are pairwise distinct and
    stand in insertion order: the names of the definitions that apply to
    the coach type and pass the AIR rule, each at its first occurrence in
    the master table, followed under COIL by whichever of "Secondary
    Outer" and "Secondary Inner" is not among them. *)
Theorem get_spring_counts_key_order coach_type secondary_type sts counts :
  get_spring_counts coach_type secondary_type sts = Ok counts ->
  dict_keys counts =
    first_occurrences []
      (map spring_name_of
         (filter (kept coach_type (secondary_type_normalized secondary_type)) sts)
       ++ (if contains "COIL" (secondary_type_normalized secondary_type)
           then secondary_names else [])) /\
  NoDup (dict_keys counts).
Proof.
  intros Hget. unfold get_spring_counts in Hget.
  destruct (spring_loop coach_type _ sts []) as [base|e] eqn:Hloop;
    simpl in Hget; [|discriminate].
  apply spring_loop_key_order in Hloop. simpl in Hloop.
  assert (Hkeys : dict_keys counts =
    first_occurrences []
      (map spring_name_of
         (filter (kept coach_type (secondary_type_normalized secondary_type)) sts)
       ++ (if contains "COIL" (secondary_type_normalized secondary_type)
           then secondary_names else []))).
  { rewrite first_occurrences_app. simpl. rewrite <- Hloop.
    destruct (contains "COIL" _); injection Hget as <-.
    - apply coil_defaults_key_order.
    - simpl. now rewrite app_nil_r. }
  split; [exact Hkeys|].
  rewrite Hkeys. apply (first_occurrences_NoDup [] _). constructor.
Qed.

Lemma get_spring_counts_key_order_witness :
  dict_keys [("Primary", 4%Z); (SO, 2%Z); (SI, 2%Z)] = ["Primary"; SO; SI].
Proof.
  destruct (@get_spring_counts_key_order "VB" (Some " coil ") vb_master
              [("Primary", 4%Z); (SO, 2%Z); (SI, 2%Z)] eq_refl) as [Hk _].
  exact Hk.
Defined.

Lemma spring_loop_raises coach_type norm sts counts e :
  spring_loop coach_type norm sts counts = Raise e <->
  e = TypeError /\
  exists it, In it sts /\ kept coach_type norm it = true /\ max_per_bogie it = Null.
Proof.
  revert counts. induction sts as [|it rest IH]; intros counts; simpl.
  - split; [discriminate | intros (_ & it & [] & _)].
  - rewrite spring_step_kept.
    destruct (kept coach_type norm it) eqn:Hk; simpl.
    + unfold max_per_bogie_int. destruct (max_per_bogie it) eqn:Hm; simpl.
      * rewrite IH. split; intros (He & it' & Hin & Hk' & Hn); split; auto.
        -- exists it'. auto.
        -- destruct Hin as [<-|Hin]; [congruence|]. exists it'. auto.
      * split.
        -- intros H. injection H as <-. split; auto. exists it. auto.
        -- intros [-> _]. reflexivity.
      * rewrite IH. split; intros (He & it' & Hin & Hk' & Hn); split; auto.
        -- exists it'. auto.
        -- destruct Hin as [<-|Hin]; [congruence|]. exists it'. auto.
    + rewrite IH. split; intros (He & it' & Hin & Hk' & Hn); split; auto.
      * exists it'. auto.
      * destruct Hin as [<-|Hin]; [congruence|]. exists it'. auto.
Qed.

(** X2: the only way [get_spring_counts] fails is the [TypeError] of
    [int(None)]: it raises exactly when some definition that applies to
    the coach type and passes the AIR rule carries a null [max_per_bogie];
    a null on a definition for another coach type, or on one the AIR rule
    skips, is never read. *)
Theorem get_spring_counts_raises_iff coach_type secondary_type sts e :
  get_spring_counts coach_type secondary_type sts = Raise e <->
  e = TypeError /\
  exists it, In it sts /\
    kept coach_type (secondary_type_normalized secondary_type) it = true /\
    max_per_bogie it = Null.
Proof.
  rewrite <- spring_loop_raises with (counts := []).
  unfold get_spring_counts.
  destruct (spring_loop coach_type _ sts []); simpl; split; congruence.
Qed.

Lemma spring_loop_app coach_type norm a b counts :
  spring_loop coach_type norm (a ++ b) counts =
  (c <- spring_loop coach_type norm a counts ;; spring_loop coach_type norm b c).
Proof.
  revert counts. induction a as [|it a IH]; intros counts; simpl; auto.
  destruct (spring_step coach_type norm counts it); simpl; auto.
Qed.

Lemma spring_loop_get_other coach_type norm sts counts base name :
  spring_loop coach_type norm sts counts = Ok base ->
  (forall it, In it sts -> kept coach_type norm it = true -> spring_name_of it <> name) ->
  dict_get name base = dict_get name counts.
Proof.
  revert counts. induction sts as [|it rest IH]; intros counts Hloop Hother; simpl in *.
  - now injection Hloop as <-.
  - rewrite spring_step_kept in Hloop.
    destruct (kept coach_type norm it) eqn:Hk; simpl in Hloop.
    + destruct (max_per_bogie_int it) as [n|e]; simpl in Hloop; [|discriminate].
      rewrite (IH _ Hloop) by (intros; apply Hother; auto).
      apply dict_get_set_other. apply Hother; auto.
    + apply (IH _ Hloop). intros; apply Hother; auto.
Qed.

(** X3: every definition that applies to the coach type and passes the
    AIR rule puts its name into a returned configuration, and when several
    of them share a name the quantity is that of the last one in the master
    table (4 when that definition has no [max_per_bogie] key). *)
Theorem get_spring_counts_last_definition_wins
  coach_type secondary_type before it after counts :
  get_spring_counts coach_type secondary_type (before ++ it :: after) = Ok counts ->
  kept coach_type (secondary_type_normalized secondary_type) it = true ->
  (forall it', In it' after ->
     kept coach_type (secondary_type_normalized secondary_type) it' = true ->
     spring_name_of it' <> spring_name_of it) ->
  dict_get (spring_name_of it) counts =
  Some (match max_per_bogie it with Val z => z | _ => 4%Z end).
Proof.
  intros Hget Hk Hlast. unfold get_spring_counts in Hget.
  set (norm := secondary_type_normalized secondary_type) in *.
  destruct (spring_loop coach_type norm (before ++ it :: after) []) as [base|e] eqn:Hloop;
    simpl in Hget; [|discriminate].
  assert (Hbase : dict_get (spring_name_of it) base =
                  Some (match max_per_bogie it with Val z => z | _ => 4%Z end)).
  { rewrite spring_loop_app in Hloop.
    destruct (spring_loop coach_type norm before []) as [c0|e]; simpl in Hloop;
      [|discriminate].
    rewrite spring_step_kept, Hk in Hloop. unfold max_per_bogie_int in Hloop.
    destruct (max_per_bogie it) as [| |z]; simpl in Hloop; try discriminate;
      rewrite (spring_loop_get_other _ _ _ _ _ _ Hloop Hlast); apply dict_get_set_same. }
  destruct (contains "COIL" norm); injection Hget as <-; auto.
  destruct (coil_defaults_get base) as (Hso & Hsi & Hother).
  destruct (String.eqb (spring_name_of it) SO) eqn:E1.
  { apply String.eqb_eq in E1. rewrite E1 in *. rewrite Hso.
    unfold dict_get_default. now rewrite Hbase. }
  destruct (String.eqb (spring_name_of it) SI) eqn:E2.
  { apply String.eqb_eq in E2. rewrite E2 in *. rewrite Hsi.
    unfold dict_get_default. now rewrite Hbase. }
  apply String.eqb_neq in E1, E2. now rewrite Hother.
Qed.

Lemma get_spring_counts_last_definition_wins_witness :
  dict_get "Primary" [("Primary", 6%Z)] = Some 6%Z.
Proof.
  apply (@get_spring_counts_last_definition_wins "VB" None
           [ {| coach_types := Val ["VB"]; spring_type := Val "Primary";
                max_per_bogie := Absent |} ]
           {| coach_types := Val ["VB"; "LHB"]; spring_type := Val "Primary";
              max_per_bogie := Val 6%Z |}
           [ {| coach_types := Val ["LHB"]; spring_type := Val "Primary";
                max_per_bogie := Val 8%Z |} ]
           [("Primary", 6%Z)] eq_refl eq_refl).
  intros it' [<-|[]] Hk. discriminate Hk.
Defined.

(* ================================================================== *)
(** ** Case and whitespace *)
(* ================================================================== *)

Ltac each_ascii c :=
  destruct c as [[|] [|] [|] [|] [|] [|] [|] [|]]; reflexivity.

Lemma isspace_upper_char c : isspace (upper_char c) = isspace c.
Proof. each_ascii c. Qed.

Lemma isspace_lower_char c : isspace (lower_char c) = isspace c.
Proof. each_ascii c. Qed.

Lemma upper_char_idem c : upper_char (upper_char c) = upper_char c.
Proof. each_ascii c. Qed.

Lemma lower_char_idem c : lower_char (lower_char c) = lower_char c.
Proof. each_ascii c. Qed.

Lemma upper_lower_char c : upper_char (lower_char c) = upper_char c.
Proof. each_ascii c. Qed.

Lemma lower_char_space c : Ascii.eqb (lower_char c) " "%char = Ascii.eqb c " "%char.
Proof. each_ascii c. Qed.

Lemma map_chars_map_chars f g s :
  map_chars f (map_chars g s) = map_chars (fun c => f (g c)) s.
Proof. induction s as [|c s IH]; simpl; congruence. Qed.

Lemma map_chars_ext f g s :
  (forall c, f c = g c) -> map_chars f s = map_chars g s.
Proof. intros H. induction s as [|c s IH]; simpl; congruence. Qed.

Lemma lstrip_map_chars f s :
  (forall c, isspace (f c) = isspace c) ->
  lstrip (map_chars f s) = map_chars f (lstrip s).
Proof.
  intros Hf. induction s as [|c s IH]; simpl; auto.
  rewrite Hf. now destruct (isspace c).
Qed.

Lemma rstrip_map_chars f s :
  (forall c, isspace (f c) = isspace c) ->
  rstrip (map_chars f s) = map_chars f (rstrip s).
Proof.
  intros Hf. induction s as [|c s IH]; simpl; auto.
  rewrite IH. destruct (rstrip s); simpl; auto.
  rewrite Hf. now destruct (isspace c).
Qed.

Lemma strip_map_chars f s :
  (forall c, isspace (f c) = isspace c) ->
  strip (map_chars f s) = map_chars f (strip s).
Proof.
  intros Hf. unfold strip. now rewrite lstrip_map_chars, rstrip_map_chars.
Qed.

Lemma rstrip_idem s : rstrip (rstrip s) = rstrip s.
Proof.
  induction s as [|c s IH]; simpl; auto.
  destruct (rstrip s) as [|a r] eqn:E.
  - destruct (isspace c) eqn:Hc; simpl; auto. now rewrite Hc.
  - change (rstrip (String c (String a r))) with
      (match rstrip (String a r) with
       | EmptyString => if isspace c then EmptyString else String c EmptyString
       | String x y => String c (String x y)
       end).
    now rewrite IH.
Qed.

(** A text that is empty or starts with a character that is not white space. *)
Lemma lstrip_clean s :
  match s with EmptyString => True | String c _ => isspace c = false end ->
  lstrip s = s.
Proof. destruct s as [|c s]; simpl; auto. now intros ->. Qed.

Lemma lstrip_is_clean s :
  match lstrip s with EmptyString => True | String c _ => isspace c = false end.
Proof.
  induction s as [|c s IH]; simpl; auto.
  destruct (isspace c) eqn:Hc; auto.
Qed.

Lemma rstrip_keeps_clean s :
  match s with EmptyString => True | String c _ => isspace c = false end ->
  match rstrip s with EmptyString => True | String c _ => isspace c = false end.
Proof.
  destruct s as [|c s]; simpl; auto. intros Hc.
  destruct (rstrip s); [rewrite Hc|]; exact Hc.
Qed.

Lemma strip_idem s : strip (strip s) = strip s.
Proof.
  unfold strip.
  rewrite (lstrip_clean (rstrip (lstrip s))).
  - apply rstrip_idem.
  - apply rstrip_keeps_clean, lstrip_is_clean.
Qed.

Lemma strip_is_clean s :
  match strip s with EmptyString => True | String c _ => isspace c = false end.
Proof. apply rstrip_keeps_clean, lstrip_is_clean. Qed.

Lemma normalized_of_mapped f s :
  (forall c, isspace (f c) = isspace c) ->
  (forall c, upper_char (f c) = upper_char c) ->
  secondary_type_normalized (Some (map_chars f s)) = secondary_type_normalized (Some s).
Proof.
  intros Hsp Hup. unfold secondary_type_normalized, upper.
  rewrite strip_map_chars by exact Hsp.
  rewrite map_chars_map_chars, (map_chars_ext _ upper_char _ Hup).
  destruct s; reflexivity.
Qed.

Lemma normalized_of_stripped s :
  secondary_type_normalized (Some (strip s)) = secondary_type_normalized (Some s).
Proof.
  unfold secondary_type_normalized. rewrite strip_idem. simpl.
  destruct (String.eqb (strip s) EmptyString) eqn:E; simpl.
  - apply String.eqb_eq in E. rewrite E. now destruct (String.eqb s EmptyString).
  - destruct s; [discriminate E | reflexivity].
Qed.

(** X4: the resolver reads the secondary type without regard to letter
    case or to white space around it: the lower-cased, the upper-cased and
    the trimmed text all give the result of the text itself, and an absent,
    empty or blank text gives the result of no secondary type at all. *)
Theorem get_spring_counts_case_insensitive coach_type s sts :
  get_spring_counts coach_type (Some (lower s)) sts
    = get_spring_counts coach_type (Some s) sts /\
  get_spring_counts coach_type (Some (upper s)) sts
    = get_spring_counts coach_type (Some s) sts /\
  get_spring_counts coach_type (Some (strip s)) sts
    = get_spring_counts coach_type (Some s) sts /\
  (strip s = EmptyString ->
   get_spring_counts coach_type (Some s) sts = get_spring_counts coach_type None sts).
Proof.
  unfold get_spring_counts, lower, upper.
  rewrite (normalized_of_mapped lower_char s isspace_lower_char upper_lower_char).
  rewrite (normalized_of_mapped upper_char s isspace_upper_char upper_char_idem).
  rewrite normalized_of_stripped.
  repeat split.
  intros Hblank. unfold secondary_type_normalized. rewrite Hblank. simpl.
  now destruct (negb _).
Qed.

Lemma get_spring_counts_case_insensitive_witness :
  get_spring_counts "VB" (Some "   ") vb_master = get_spring_counts "VB" None vb_master.
Proof.
  destruct (get_spring_counts_case_insensitive "VB" "   " vb_master) as (_ & _ & _ & H).
  apply H. reflexivity.
Defined.

Lemma lower_remove_spaces s : lower (remove_spaces s) = remove_spaces (lower s).
Proof.
  unfold lower. induction s as [|c s IH]; simpl; auto.
  rewrite lower_char_space. destruct (Ascii.eqb c " "%char); simpl; congruence.
Qed.

Lemma remove_spaces_idem s : remove_spaces (remove_spaces s) = remove_spaces s.
Proof.
  induction s as [|c s IH]; simpl; auto.
  destruct (Ascii.eqb c " "%char) eqn:E; simpl; auto.
  rewrite E. congruence.
Qed.

Lemma lower_idem s : lower (lower s) = lower s.
Proof.
  unfold lower. rewrite map_chars_map_chars.
  apply map_chars_ext, lower_char_idem.
Qed.

Lemma remove_spaces_chars s c :
  In c (chars (remove_spaces s)) <-> In c (chars s) /\ c <> " "%char.
Proof.
  induction s as [|a s IH]; simpl; [tauto|].
  destruct (Ascii.eqb a " "%char) eqn:E; simpl; rewrite IH.
  - apply Ascii.eqb_eq in E. subst a. intuition congruence.
  - apply Ascii.eqb_neq in E. intuition congruence.
Qed.

Lemma lower_chars s c : In c (chars (lower s)) -> lower_char c = c.
Proof.
  unfold lower. induction s as [|a s IH]; simpl; [tauto|].
  intros [<-|H]; auto. apply lower_char_idem.
Qed.

(** X5: a position key is already in key form: it holds no space and no
    upper-case letter, and taking the key of a key changes nothing, so a
    display name and its key address the same cell. *)
Theorem position_key_normal stype :
  position_key (position_key stype) = position_key stype /\
  forall c, In c (chars (position_key stype)) -> c <> " "%char /\ lower_char c = c.
Proof.
  unfold position_key. split.
  - now rewrite lower_remove_spaces, lower_idem, remove_spaces_idem.
  - intros c Hc. apply remove_spaces_chars in Hc. destruct Hc as [Hc Hsp].
    split; auto. now apply lower_chars with (s := stype).
Qed.

(* ================================================================== *)
(** ** Properties of [_para] *)
(* ================================================================== *)

Lemma chars_app (a b : string) : chars (a ++ b) = (chars a ++ chars b)%list.
Proof. induction a as [|c a IH]; simpl; congruence. Qed.

Lemma newlines_to_br_app a b :
  newlines_to_br (a ++ b) = (newlines_to_br a ++ newlines_to_br b)%string.
Proof.
  induction a as [|c a IH]; simpl; auto.
  destruct (Ascii.eqb c "010"%char); simpl; congruence.
Qed.

Lemma special_char_false c :
  special_char c = false ->
  Ascii.eqb c "&"%char = false /\ Ascii.eqb c "<"%char = false /\
  Ascii.eqb c ">"%char = false /\ Ascii.eqb c "034"%char = false /\
  Ascii.eqb c "'"%char = false /\ Ascii.eqb c "010"%char = false.
Proof.
  unfold special_char. intros H.
  repeat (apply orb_false_elim in H; destruct H as [H ?]). auto 10.
Qed.

(** The markup of a character: one of six fixed strings, or the character. *)
Lemma char_markup_cases c :
  (c = "&"%char /\ char_markup c = "&amp;") \/
  (c = "<"%char /\ char_markup c = "&lt;") \/
  (c = ">"%char /\ char_markup c = "&gt;") \/
  (c = "034"%char /\ char_markup c = "&quot;") \/
  (c = "'"%char /\ char_markup c = "&#x27;") \/
  (c = "010"%char /\ char_markup c = "<br/>") \/
  (special_char c = false /\ char_markup c = String c EmptyString).
Proof.
  unfold char_markup, escape_char, special_char.
  destruct (Ascii.eqb c "&"%char) eqn:E1; [apply Ascii.eqb_eq in E1; subst; auto|].
  destruct (Ascii.eqb c "<"%char) eqn:E2; [apply Ascii.eqb_eq in E2; subst; auto 6|].
  destruct (Ascii.eqb c ">"%char) eqn:E3; [apply Ascii.eqb_eq in E3; subst; auto 6|].
  destruct (Ascii.eqb c "034"%char) eqn:E4; [apply Ascii.eqb_eq in E4; subst; auto 7|].
  destruct (Ascii.eqb c "'"%char) eqn:E5; [apply Ascii.eqb_eq in E5; subst; auto 8|].
  destruct (Ascii.eqb c "010"%char) eqn:E6.
  - apply Ascii.eqb_eq in E6. subst. auto 10.
  - do 6 right. split; auto. simpl. now rewrite E6.
Qed.

Lemma para_markup_cons c s :
  newlines_to_br (html_escape (String c s)) =
  (char_markup c ++ newlines_to_br (html_escape s))%string.
Proof. simpl. now rewrite newlines_to_br_app. Qed.

Lemma para_markup_chars s d :
  In d (chars (newlines_to_br (html_escape s))) ->
  d <> "010"%char /\ d <> "034"%char /\ d <> "'"%char /\
  ((d = "<"%char \/ d = ">"%char) -> In "010"%char (chars s)).
Proof.
  induction s as [|c s IH]; [intros []|].
  rewrite para_markup_cons, chars_app. intros Hin.
  apply in_app_or in Hin. destruct Hin as [Hin|Hin].
  - destruct (char_markup_cases c)
      as [[-> E]|[[-> E]|[[-> E]|[[-> E]|[[-> E]|[[-> E]|[Hs E]]]]]]];
      rewrite E in Hin; simpl in Hin.
    1-5: repeat (destruct Hin as [<-|Hin]; [repeat split; try discriminate;
                  intros [H|H]; discriminate H|]); destruct Hin.
    + repeat (destruct Hin as [<-|Hin]; [repeat split; try discriminate;
                intros _; simpl; auto|]); destruct Hin.
    + destruct Hin as [<-|[]]. apply special_char_false in Hs.
      destruct Hs as (_ & H2 & H3 & H4 & H5 & H6).
      apply Ascii.eqb_neq in H2, H3, H4, H5, H6.
      repeat split; auto. intros [H|H]; congruence.
  - destruct (IH Hin) as (H1 & H2 & H3 & H4).
    repeat split; auto. intros H. simpl. right. auto.
Qed.

(** X6: whatever the text, the markup [_para] produces holds no line
    break, no double quote and no apostrophe, and it holds an angle bracket
    only as part of the break tag that stands for a line break of the text:
    user text cannot open or close a tag. *)
Theorem para_markup_safe text style :
  ~ In "010"%char (chars (cell_markup (_para text style))) /\
  ~ In "034"%char (chars (cell_markup (_para text style))) /\
  ~ In "'"%char (chars (cell_markup (_para text style))) /\
  (~ In "010"%char (chars (str text)) ->
   ~ In "<"%char (chars (cell_markup (_para text style))) /\
   ~ In ">"%char (chars (cell_markup (_para text style)))).
Proof.
  unfold _para. simpl cell_markup.
  set (t := match text with PNone => EmptyString | _ => str text end).
  assert (Ht : In "010"%char (chars t) -> In "010"%char (chars (str text))).
  { subst t. destruct text; simpl; tauto. }
  split; [|split; [|split]].
  - intros H. apply para_markup_chars in H. destruct H as (H1 & _). congruence.
  - intros H. apply para_markup_chars in H. destruct H as (_ & H2 & _). congruence.
  - intros H. apply para_markup_chars in H. destruct H as (_ & _ & H3 & _). congruence.
  - intros Hnl. split; intros H; apply para_markup_chars in H;
      destruct H as (_ & _ & _ & H4); apply Hnl, Ht, H4; auto.
Qed.

Lemma para_markup_safe_witness :
  ~ In "<"%char (chars (cell_markup (_para (PStr "<b>5 & 6</b>") small))).
Proof.
  destruct (para_markup_safe (PStr "<b>5 & 6</b>") small) as (_ & _ & _ & H).
  apply H. simpl. intuition discriminate.
Defined.

(** X7: a text with no ampersand, angle bracket, double quote, apostrophe
    or line break is rendered verbatim. *)
Theorem para_plain_text s style :
  (forall c, In c (chars s) -> special_char c = false) ->
  _para (PStr s) style = CPara s style.
Proof.
  intros Hplain. unfold _para. simpl str. f_equal.
  induction s as [|c s IH]; auto.
  rewrite para_markup_cons, IH by (intros d Hd; apply Hplain; now right).
  destruct (char_markup_cases c)
    as [[-> E]|[[-> E]|[[-> E]|[[-> E]|[[-> E]|[[-> E]|[Hs E]]]]]]];
    try (now rewrite E);
    specialize (Hplain _ (or_introl eq_refl)); discriminate Hplain.
Qed.

Lemma para_plain_text_witness :
  _para (PStr "Primary") small = CPara "Primary" small.
Proof.
  apply para_plain_text. simpl.
  intros c H. repeat (destruct H as [<-|H]; [reflexivity|]). destruct H.
Defined.

(** The markups of two characters never start one another. *)
Lemma char_markup_prefix_free c1 c2 r1 r2 :
  (char_markup c1 ++ r1 = char_markup c2 ++ r2)%string -> c1 = c2 /\ r1 = r2.
Proof.
  intros H.
  destruct (char_markup_cases c1)
    as [[-> E1]|[[-> E1]|[[-> E1]|[[-> E1]|[[-> E1]|[[-> E1]|[Hs1 E1]]]]]]];
  destruct (char_markup_cases c2)
    as [[-> E2]|[[-> E2]|[[-> E2]|[[-> E2]|[[-> E2]|[[-> E2]|[Hs2 E2]]]]]]];
  rewrite ?E1, ?E2 in H; simpl in H;
  try discriminate H;
  injection H; intros; subst;
  try (vm_compute in Hs1; discriminate Hs1);
  try (vm_compute in Hs2; discriminate Hs2);
  auto.
Qed.

(** X8: escaping loses nothing: two texts with the same markup are the
    same text. *)
Theorem para_markup_injective s1 s2 style :
  _para (PStr s1) style = _para (PStr s2) style -> s1 = s2.
Proof.
  unfold _para. simpl str. intros H. injection H as H. revert s2 H.
  induction s1 as [|c1 s1 IH]; intros [|c2 s2] H; auto.
  - rewrite para_markup_cons in H. simpl in H.
    destruct (char_markup_cases c2)
      as [[-> E]|[[-> E]|[[-> E]|[[-> E]|[[-> E]|[[-> E]|[Hs E]]]]]]];
      rewrite E in H; discriminate H.
  - rewrite para_markup_cons in H. simpl in H.
    destruct (char_markup_cases c1)
      as [[-> E]|[[-> E]|[[-> E]|[[-> E]|[[-> E]|[[-> E]|[Hs E]]]]]]];
      rewrite E in H; discriminate H.
  - rewrite !para_markup_cons in H.
    apply char_markup_prefix_free in H. destruct H as [-> H].
    f_equal. now apply IH.
Qed.

Lemma para_markup_injective_witness :
  "a&b" = "a&b".
Proof.
  apply (para_markup_injective "a&b" "a&b" small). reflexivity.
Defined.

(* ================================================================== *)
(** ** Checklist tables and the sections of the story *)
(* ================================================================== *)

Lemma append_rows_map {A B : Type} (f : A -> B) (l : list A) (acc : list B) :
  fold_left (fun rows x => rows ++ [f x]) l acc = acc ++ map f l.
Proof.
  revert acc. induction l as [|x l IH]; intros acc; simpl.
  - now rewrite app_nil_r.
  - rewrite IH, <- app_assoc. reflexivity.
Qed.

(** The table of [render_inspection_table]: the header, then one row per
    activity with the activity cell, one cell per position and the remarks. *)
Lemma render_inspection_table_rows title activities scounts color_hex :
  render_inspection_table title activities scounts color_hex =
  [ Paragraph title h_style;
    Table
      (map label (["Activity"] ++ dict_keys scounts ++ ["Remarks"])
       :: map (fun act =>
                 [_para (dict_get_default "activity" (PStr EmptyString) act) small]
                 ++ map (fun stype =>
                           _para (dict_get_default (position_key stype)
                                    (PStr EmptyString) act) small)
                      (dict_keys scounts)
                 ++ [_para (dict_get_default "remarks" (PStr EmptyString) act) small])
            activities)
      ([mm 80]
       ++ repeat (remaining_over (Nat.max 1 (length scounts)))
            (Nat.max 1 (length scounts))
       ++ [mm 40])
      (Some color_hex);
    Spacer 1 8 ].
Proof.
  unfold render_inspection_table. now rewrite append_rows_map.
Qed.

(** X9: a checklist table has one header row and one row per activity,
    and every row has a cell per position plus the activity and remarks
    cells.  Its width list is the activity width of 80 mm, one equal share
    of the remaining width per position but never fewer than one share,
    and the remarks width of 40 mm: for a
    configuration with at least one position that is one width per column,
    for an empty one it is three widths for a table of two columns. *)
Theorem render_inspection_table_shape title activities scounts color_hex :
  exists rows widths,
    render_inspection_table title activities scounts color_hex =
      [Paragraph title h_style; Table rows widths (Some color_hex); Spacer 1 8] /\
    length rows = S (length activities) /\
    (forall row, In row rows -> length row = 2 + length scounts) /\
    widths = [mm 80]
             ++ repeat (remaining_over (Nat.max 1 (length scounts)))
                  (Nat.max 1 (length scounts))
             ++ [mm 40] /\
    length widths = 2 + Nat.max 1 (length scounts) /\
    (scounts <> [] -> forall row, In row rows -> length row = length widths) /\
    (scounts = [] -> forall row, In row rows -> length row = 2 /\ length widths = 3).
Proof.
  rewrite render_inspection_table_rows.
  eexists. eexists. split; [reflexivity|].
  assert (Hrow : forall row,
            In row
              (map label (["Activity"] ++ dict_keys scounts ++ ["Remarks"])
               :: map (fun act =>
                    [_para (dict_get_default "activity" (PStr EmptyString) act) small]
                    ++ map (fun stype =>
                              _para (dict_get_default (position_key stype)
                                       (PStr EmptyString) act) small)
                         (dict_keys scounts)
                    ++ [_para (dict_get_default "remarks" (PStr EmptyString) act) small])
                  activities) ->
            length row = 2 + length scounts).
  { intros row [<-|Hin].
    + rewrite length_map. simpl. rewrite length_app. unfold dict_keys.
      rewrite length_map. simpl. lia.
    + apply in_map_iff in Hin. destruct Hin as (act & <- & _).
      simpl. rewrite length_app, length_map. unfold dict_keys.
      rewrite length_map. simpl. lia. }
  assert (Hw : length ([mm 80]
                 ++ repeat (remaining_over (Nat.max 1 (length scounts)))
                      (Nat.max 1 (length scounts))
                 ++ [mm 40]) = 2 + Nat.max 1 (length scounts)).
  { simpl. rewrite length_app, repeat_length. simpl. lia. }
  split; [|split; [exact Hrow|split; [reflexivity|split; [exact Hw|split]]]].
  - simpl. now rewrite length_map.
  - intros Hne row Hin. rewrite Hw, (Hrow row Hin).
    destruct scounts; [congruence | simpl; lia].
  - intros -> row Hin. rewrite Hw, (Hrow row Hin). simpl. lia.
Qed.

Lemma nth_error_build_rows activities sc dv i act :
  nth_error activities i = Some act ->
  nth_error (build_default_inspection_rows activities sc dv) i
  = Some (build_row sc dv act).
Proof.
  intros H. rewrite build_rows_map. now apply map_nth_error.
Qed.

(** X10: in the checklist table of rows fresh from
    [build_default_inspection_rows], rendered with the configuration they
    were built for, the cell of every activity under every position shows
    the default status. *)
Theorem default_rows_render_default title activities sc dv color_hex i j act stype :
  nth_error activities i = Some act ->
  nth_error (dict_keys sc) j = Some stype ->
  exists rows widths row,
    render_inspection_table title
      (build_default_inspection_rows activities sc dv) sc color_hex =
      [Paragraph title h_style; Table rows widths (Some color_hex); Spacer 1 8] /\
    nth_error rows (S i) = Some row /\
    nth_error row (S j) = Some (_para (PStr dv) small).
Proof.
  intros Hact Hpos. rewrite render_inspection_table_rows.
  eexists. eexists. eexists. split; [reflexivity|]. split.
  - simpl. apply map_nth_error. apply nth_error_build_rows. exact Hact.
  - simpl. rewrite nth_error_app1.
    + erewrite map_nth_error by exact Hpos.
      unfold dict_get_default. rewrite build_row_position; auto.
      eapply nth_error_In. exact Hpos.
    + rewrite length_map. apply nth_error_Some. congruence.
Qed.

Lemma default_rows_render_default_witness :
  exists rows widths row,
    render_inspection_table "Must Do - Bogie 1"
      (build_default_inspection_rows [[("id", PInt 1)]] remarks_counts "Done")
      remarks_counts "#1565c0" =
      [Paragraph "Must Do - Bogie 1" h_style; Table rows widths (Some "#1565c0");
       Spacer 1 8] /\
    nth_error rows 1 = Some row /\
    nth_error row 1 = Some (label "Done").
Proof.
  apply (default_rows_render_default "Must Do - Bogie 1" [[("id", PInt 1)]]
           remarks_counts "Done" "#1565c0" 0 0 [("id", PInt 1)] "Remarks");
    reflexivity.
Defined.

Lemma dict_set_entries (V : Type) k (v : V) (d : dict V) kv :
  In kv (dict_set k v d) -> In kv d \/ snd kv = v.
Proof.
  induction d as [|[k' v'] d IH]; simpl.
  - intros [<-|[]]. now right.
  - destruct (String.eqb k k'); simpl.
    + intros [<-|H]; auto.
    + intros [<-|H]; auto. destruct (IH H); auto.
Qed.

Lemma build_row_entries sc dv act kv :
  In kv (build_row sc dv act) -> In (fst kv) row_fields \/ snd kv = PStr dv.
Proof.
  unfold build_row.
  generalize (dict_keys sc) as ks.
  assert (H0 : forall kv', In kv'
            [("activity_id", dict_get_default "id" PNone act);
             ("activity", dict_get_default "activity_text" (PStr EmptyString) act);
             ("remarks", PStr EmptyString)] ->
            In (fst kv') row_fields \/ snd kv' = PStr dv).
  { unfold row_fields. simpl. intros kv' [<-|[<-|[<-|[]]]]; simpl; auto. }
  revert H0.
  generalize [("activity_id", dict_get_default "id" PNone act);
              ("activity", dict_get_default "activity_text" (PStr EmptyString) act);
              ("remarks", PStr EmptyString)] as r.
  intros r H0 ks. revert r H0.
  induction ks as [|k ks IH]; intros r H0; simpl.
  - apply H0.
  - apply IH. intros kv' Hin. apply dict_set_entries in Hin.
    destruct Hin; auto.
Qed.

Lemma clean_fold_untouched default_val items (acc : dict pyval) :
  (forall kv, In kv items -> reverts kv = false) ->
  fold_left (fun r' kv => if reverts kv then dict_set (fst kv) (PStr default_val) r'
                          else r') items acc = acc.
Proof.
  revert acc. induction items as [|kv items IH]; intros acc H; simpl; auto.
  rewrite (H kv) by now left. apply IH. intros kv' Hin. apply H. now right.
Qed.

(** X11: finalising a checklist nobody edited changes none of its cells:
    rows fresh from [build_default_inspection_rows] with a non-empty
    default come out of [clean_inspections], whatever its own default, as
    they went in, up to a missing activity id or text turned into the
    empty string. *)
Theorem unedited_rows_unchanged activities sc dv default_val :
  dv <> EmptyString ->
  clean_inspections (Some (build_default_inspection_rows activities sc dv)) default_val
  = to_records (build_default_inspection_rows activities sc dv).
Proof.
  intros Hdv. unfold clean_inspections.
  rewrite <- (map_id (to_records _)) at 2.
  apply map_ext_in. intros r Hr. unfold to_records in Hr.
  apply in_map_iff in Hr. destruct Hr as (r0 & <- & Hr0).
  rewrite build_rows_map in Hr0. apply in_map_iff in Hr0.
  destruct Hr0 as (act & <- & _).
  unfold clean_record. apply clean_fold_untouched.
  intros kv Hkv. apply in_map_iff in Hkv. destruct Hkv as (kv0 & <- & Hkv0).
  unfold reverts. cbn [fst snd].
  destruct (build_row_entries _ _ _ _ Hkv0) as [Hf|Hv].
  - unfold row_fields in Hf. simpl in Hf.
    destruct Hf as [<-|[<-|[<-|[]]]]; simpl; apply andb_false_r.
  - rewrite Hv. simpl. apply String.eqb_neq in Hdv. now rewrite Hdv.
Qed.

Lemma unedited_rows_unchanged_witness :
  clean_visual (Some (build_default_inspection_rows [[("id", PInt 1)]]
                        remarks_counts "Satisfactory"))
  = [[("activity_id", PInt 1); ("activity", PStr EmptyString);
      ("remarks", PStr "Satisfactory")]].
Proof.
  unfold clean_visual.
  rewrite (unedited_rows_unchanged [[("id", PInt 1)]] remarks_counts
             "Satisfactory" "Satisfactory") by discriminate.
  reflexivity.
Defined.

Lemma headings_app a b : headings (a ++ b) = headings a ++ headings b.
Proof. unfold headings. apply flat_map_app. Qed.

Lemma headings_spring_configuration scounts :
  headings (spring_configuration scounts) =
  match scounts with [] => [] | _ => ["Spring Configuration"] end.
Proof. destruct scounts; reflexivity. Qed.

Lemma headings_defects_summary record c2n :
  headings (defects_summary record c2n) = ["Defects Summary"].
Proof.
  unfold defects_summary. rewrite !headings_app. simpl.
  now destruct (defects_combined _ _ _ _ _).
Qed.

Lemma headings_render_inspection_table title activities scounts color_hex :
  headings (render_inspection_table title activities scounts color_hex) = [title].
Proof. reflexivity. Qed.

Lemma headings_with_signature_images image_readable story s1 s2 :
  headings (with_signature_images image_readable story s1 s2) = headings story.
Proof.
  unfold with_signature_images.
  destruct (has_bytes s1 || has_bytes s2); auto.
  destruct (image_cell image_readable s1); simpl; auto.
  destruct (image_cell image_readable s2); simpl; auto.
  rewrite headings_app. simpl. apply app_nil_r.
Qed.

(** X12: every story opens with the title and carries its section
    headings in one fixed order: "Spring Configuration" (only for a
    non-empty configuration), "Defects Summary", the two visual and the two
    must-do checklists, "Signatures"; no input and no image outcome adds,
    drops or reorders a section. *)
Theorem story_sections_fixed image_readable record c2n s1 s2 :
  hd_error (build_story image_readable record c2n s1 s2)
    = Some (Paragraph "SPRING INSPECTION REPORT" title_style) /\
  headings (build_story image_readable record c2n s1 s2) =
  match list_of (spring_counts record) with
  | [] => []
  | _ => ["Spring Configuration"]
  end
  ++ ["Defects Summary";
      "Visual Inspection - Bogie 1"; "Visual Inspection - Bogie 2";
      "Must Do - Bogie 1"; "Must Do - Bogie 2";
      "Signatures"].
Proof.
  split.
  - unfold build_story.
    destruct (with_signature_images_tail image_readable (story_body record c2n) s1 s2)
      as [tail ->].
    reflexivity.
  - unfold build_story. rewrite headings_with_signature_images.
    unfold story_body.
    rewrite !headings_app, headings_spring_configuration, headings_defects_summary,
      !headings_render_inspection_table.
    reflexivity.
Qed.

(** X13: the image row follows the signature table exactly when some
    signature bytes were supplied and every supplied image loaded: it then
    has the shop image in the first cell and the inspection image in the
    third, with a blank paragraph wherever no bytes were given.  Without
    any bytes, or with only empty ones, the story ends at the signature
    table. *)
Theorem signature_image_row image_readable record c2n s1 s2 :
  (has_bytes s1 = false -> has_bytes s2 = false ->
   build_story image_readable record c2n s1 s2 = story_body record c2n) /\
  (has_bytes s1 || has_bytes s2 = true ->
   image_fails image_readable s1 = false ->
   image_fails image_readable s2 = false ->
   build_story image_readable record c2n s1 s2 =
   story_body record c2n ++
   [ Spacer 1 6;
     Table [[image_slot s1; label EmptyString; image_slot s2; label EmptyString]]
       [mm 50; mm 70; mm 50; mm 70] None ]).
Proof.
  unfold build_story, with_signature_images. split.
  - intros -> ->. reflexivity.
  - intros -> H1 H2.
    assert (Hcell : forall s, image_fails image_readable s = false ->
              image_cell image_readable s =
              Ok (match s with
                  | Some data => if has_bytes s then Some (CImage data 45 20) else None
                  | None => None
                  end)).
    { intros [data|] Hs; simpl in *; auto.
      unfold RLImage.
      destruct (negb (String.eqb data EmptyString)); simpl in *; auto.
      apply negb_false_iff in Hs. now rewrite Hs. }
    rewrite (Hcell s1 H1), (Hcell s2 H2). simpl.
    assert (Hslot : forall s,
              cell_or_blank (match s with
                             | Some data =>
                                 if has_bytes s then Some (CImage data 45 20) else None
                             | None => None
                             end) = image_slot s).
    { intros [data|]; simpl; auto.
      now destruct (negb (String.eqb data EmptyString)). }
    now rewrite !Hslot.
Qed.

Lemma signature_image_row_witness :
  build_story png_only (sample_report [] []) sample_codes None (Some "PNG-ins") =
  story_body (sample_report [] []) sample_codes ++
  [ Spacer 1 6;
    Table [[label EmptyString; label EmptyString; CImage "PNG-ins" 45 20;
            label EmptyString]]
      [mm 50; mm 70; mm 50; mm 70] None ].
Proof.
  destruct (signature_image_row png_only (sample_report [] []) sample_codes
              None (Some "PNG-ins")) as [_ H].
  apply H; reflexivity.
Defined.

(* ================================================================== *)
(** ** Properties of the Generate Report handler *)
(* ================================================================== *)

(** X14: the coach type of a report is never empty.  A recorded,
    non-empty type is used as it is; otherwise the type is "VB" when the
    upper-cased coach code contains "VB" and "LHB" in every other case,
    whether or not the code mentions "LHB" or "LW". *)
Theorem existing_coach_type_fallback coach_type coach_code :
  existing_coach_type coach_type coach_code <> EmptyString /\
  (forall t, coach_type = Some t -> t <> EmptyString ->
             existing_coach_type coach_type coach_code = t) /\
  (coach_type = None \/ coach_type = Some EmptyString ->
   existing_coach_type coach_type coach_code =
   if contains "VB" (strip (upper (str (or_default (PStr EmptyString) coach_code))))
   then "VB" else "LHB").
Proof.
  unfold existing_coach_type. split; [|split].
  - destruct coach_type as [[|c t]|]; simpl;
      try discriminate;
      destruct (contains "VB" _); try discriminate;
      destruct (_ || _); discriminate.
  - intros t -> Ht. destruct t; [congruence | reflexivity].
  - intros [->| ->]; simpl; destruct (contains "VB" _); auto;
      now destruct (_ || _).
Qed.

Lemma existing_coach_type_fallback_witness :
  existing_coach_type None (Some (PStr " lwscn-vb2 ")) = "VB" /\
  existing_coach_type (Some "EMU") None = "EMU".
Proof.
  destruct (existing_coach_type_fallback None (Some (PStr " lwscn-vb2 ")))
    as (_ & _ & Hguess).
  destruct (existing_coach_type_fallback (Some "EMU") None) as (_ & Hkeep & _).
  split.
  - rewrite Hguess by now left. reflexivity.
  - apply Hkeep; [reflexivity | discriminate].
Defined.

(** X15: a coach whose first failure row has no secondary suspension type
    is reported as "Air Spring": whatever the master table holds, its
    configuration has no position whose name contains "secondary". *)
Theorem no_secondary_type_no_secondary_springs
  coach_type coach_code secondary_suspension_type sts counts k :
  secondary_suspension_type = None \/ secondary_suspension_type = Some EmptyString ->
  report_spring_counts coach_type coach_code secondary_suspension_type sts = Ok counts ->
  dict_mem k counts = true ->
  contains "secondary" (lower k) = false.
Proof.
  intros Hsec Hget Hmem. unfold report_spring_counts, get_spring_counts in Hget.
  assert (Hnorm : secondary_type_normalized
                    (Some (existing_secondary_type secondary_suspension_type))
                  = "AIR SPRING") by (destruct Hsec as [->| ->]; reflexivity).
  rewrite Hnorm in Hget.
  destruct (spring_loop _ "AIR SPRING" sts []) as [base|e] eqn:Hloop;
    simpl in Hget; [|discriminate].
  injection Hget as <-. apply dict_mem_get in Hmem.
  destruct (@spring_loop_air _ "AIR SPRING" _ _ _ eq_refl Hloop k Hmem)
    as [Hin|Hno]; auto.
  simpl in Hin. congruence.
Qed.

Lemma no_secondary_type_no_secondary_springs_witness :
  contains "secondary" (lower "Primary") = false.
Proof.
  apply (no_secondary_type_no_secondary_springs (Some "VB") None None vb_master
           [("Primary", 4%Z)] "Primary"); [now left | reflexivity | reflexivity].
Defined.

(** X16: in a report made by the handler the Defects Summary counts
    every failure row of the coach once, total included, and with at least
    one row the table has, after its header, exactly one line per failure
    row: first the rows of bogie 1 in their order, labelled with the first
    bogie number entered or "Bogie 1", then those of bogie 2, labelled with
    the second bogie number entered, which is the empty text when none was
    entered. *)
Theorem handler_defects_table (datetime date : Type)
  (fromisoformat : string -> result datetime) (to_date : datetime -> date)
  (date_isoformat : date -> string) (datetime_isoformat : datetime -> string)
  (f : report_form) (c2n : list (pyval * pyval)) :
  let record :=
    handler_record fromisoformat to_date date_isoformat datetime_isoformat f in
  let first := filter (fun r => negb (to_bogie2 r)) (coach_failures f) in
  let second := filter to_bogie2 (coach_failures f) in
  nth_error (defects_summary record c2n) 1 =
    Some (Paragraph
            ("Bogie1: <b>" ++ str_of_nat (length first)
               ++ "</b>  &nbsp;&nbsp; Bogie2: <b>" ++ str_of_nat (length second)
               ++ "</b>  &nbsp;&nbsp; Total: <b>"
               ++ str_of_nat (length (coach_failures f)) ++ "</b>") small) /\
  (coach_failures f <> [] ->
   nth_error (defects_summary record c2n) 3 =
     Some (Table
             (defects_header
              :: map (fun r => defect_row c2n
                                 (PStr (text_or (report_bogie1 f) "Bogie 1"))
                                 (make_defect r)) first
              ++ map (fun r => defect_row c2n (PStr (report_bogie2 f)) (make_defect r))
                   second)
             [mm 25; mm 50; mm 25; mm 60; mm 40] (Some "#c62828"))) /\
  length first + length second = length (coach_failures f).
Proof.
  intros record first second.
  assert (Hfst : list_of (bogie1_defects record) = map make_defect first).
  { unfold record, handler_record, partition_defects. simpl.
    now rewrite partition_fold. }
  assert (Hsnd : list_of (bogie2_defects record) = map make_defect second).
  { unfold record, handler_record, partition_defects. simpl.
    now rewrite partition_fold. }
  assert (Hlen : length first + length second = length (coach_failures f)).
  { apply filter_split_length. }
  assert (Hl2 : text_or (report_bogie2 f) EmptyString = report_bogie2 f).
  { unfold text_or. simpl. destruct (report_bogie2 f); reflexivity. }
  split; [|split; [|exact Hlen]].
  - unfold defects_summary. rewrite Hfst, Hsnd, !length_map, Hlen. reflexivity.
  - intros Hne. unfold defects_summary.
    rewrite defects_combined_map, Hfst, Hsnd, !map_map.
    change (or_default (PStr "Bogie 1") (bogie1_number record))
      with (PStr (text_or (report_bogie1 f) "Bogie 1")).
    change (or_default (PStr "Bogie 2") (bogie2_number record))
      with (PStr (text_or (report_bogie2 f) EmptyString)).
    rewrite Hl2.
    destruct (map _ first ++ map _ second) as [|row rows] eqn:E; [|reflexivity].
    exfalso. apply app_eq_nil in E. destruct E as [E1 E2].
    apply map_eq_nil in E1, E2. apply Hne.
    rewrite E1, E2 in Hlen. simpl in Hlen.
    destruct (coach_failures f); [reflexivity | discriminate Hlen].
Qed.

Lemma handler_defects_table_witness :
  nth_error
    (defects_summary
       (handler_record IsoFormat.fromisoformat IsoFormat.on IsoFormat.date_isoformat
          IsoFormat.datetime_isoformat (sample_form three_failures))
       sample_codes) 3 =
  Some (Table
          [ defects_header;
            [label "Bogie 1"; label "Primary"; label "3"; label "Crack"; label "Top"];
            [label "Bogie 1"; label "Primary"; label "3"; label "Crack"; label "Top"];
            [label EmptyString; label "Primary"; label "3"; label "Crack"; label "Top"] ]
          [mm 25; mm 50; mm 25; mm 60; mm 40] (Some "#c62828")).
Proof.
  destruct (handler_defects_table _ _ IsoFormat.fromisoformat IsoFormat.on
              IsoFormat.date_isoformat IsoFormat.datetime_isoformat
              (sample_form three_failures) sample_codes) as (_ & Htable & _).
  apply Htable. discriminate.
Defined.

Lemma story_body_signatures record c2n :
  exists before, story_body record c2n = before ++ signatures record.
Proof.
  unfold story_body. eexists. rewrite !app_assoc. reflexivity.
Qed.

(** X17: the Signatures block of a report made by the handler.  It is part
    of every story; its table shows under "Name & Signature:" the name
    typed for each signer, white space included, or the blank line when
    none was typed, and under "Date:" the blank line for a date that is
    empty or only white space and the trimmed text for a date the parser
    rejects. *)
Theorem handler_signature_block (datetime date : Type)
  (fromisoformat : string -> result datetime) (to_date : datetime -> date)
  (date_isoformat : date -> string) (datetime_isoformat : datetime -> string)
  (f : report_form) :
  let record :=
    handler_record fromisoformat to_date date_isoformat datetime_isoformat f in
  exists date_shop date_ins,
    signatures record =
      [ Spacer 1 12;
        Paragraph "Signatures" h_style;
        Table
          [ [label "Prepared By (SSE SPRING SHOP)"; label EmptyString;
             label "Checked By (SSE / INSPECTION)"; label EmptyString];
            [label "Name & Signature:";
             _para (PStr (text_or (sig_shop_name f) "__________________")) small;
             label "Name & Signature:";
             _para (PStr (text_or (sig_ins_name f) "__________________")) small];
            [label "Date:"; date_shop; label "Date:"; date_ins] ]
          [mm 50; mm 70; mm 50; mm 70] None ] /\
    (forall image_readable c2n s1 s2,
       exists before after,
         build_story image_readable record c2n s1 s2
         = before ++ signatures record ++ after) /\
    (strip (sig_shop_date f) = EmptyString ->
     date_shop = label "__________________") /\
    (strip (sig_ins_date f) = EmptyString ->
     date_ins = label "__________________") /\
    (forall e, strip (sig_shop_date f) <> EmptyString ->
       fromisoformat (strip (sig_shop_date f)) = Raise e ->
       date_shop = _para (PStr (strip (sig_shop_date f))) small) /\
    (forall e, strip (sig_ins_date f) <> EmptyString ->
       fromisoformat (strip (sig_ins_date f)) = Raise e ->
       date_ins = _para (PStr (strip (sig_ins_date f))) small).
Proof.
  intros record.
  assert (Hname : forall s, por (por (PStr s) PNone) blank_line
                            = PStr (text_or s "__________________")).
  { intros [|c s]; reflexivity. }
  assert (Hblank : forall s, strip s = EmptyString ->
            por (sig_date_val fromisoformat to_date date_isoformat
                   datetime_isoformat s) blank_line = blank_line).
  { intros s Hs. unfold sig_date_val, normalize_sig_date. now rewrite Hs. }
  assert (Hpass : forall s e, strip s <> EmptyString ->
            fromisoformat (strip s) = Raise e ->
            por (sig_date_val fromisoformat to_date date_isoformat
                   datetime_isoformat s) blank_line = PStr (strip s)).
  { intros s e Hs He. unfold sig_date_val, normalize_sig_date.
    pose proof Hs as Hs'. apply String.eqb_neq in Hs'. rewrite Hs', He.
    assert (Ht : try_except
                   (if Nat.eqb (String.length (strip s)) 10
                    then d <- @Raise datetime e ;; Ok (Some (date_isoformat (to_date d)))
                    else parsed <- @Raise datetime e ;;
                         Ok (Some (datetime_isoformat parsed)))
                   (Some (strip s)) = Some (strip s))
      by now destruct (Nat.eqb _ 10).
    rewrite Ht. unfold por. simpl. now rewrite Hs'. }
  exists (_para (por (sig_date_val fromisoformat to_date date_isoformat
                        datetime_isoformat (sig_shop_date f)) blank_line) small),
         (_para (por (sig_date_val fromisoformat to_date date_isoformat
                        datetime_isoformat (sig_ins_date f)) blank_line) small).
  split; [|split; [|split; [|split; [|split]]]].
  - unfold signatures, record, handler_record.
    cbn [_sig_shop_name _sig_ins_name _sig_shop_date _sig_ins_date text_of or_default].
    now rewrite !Hname.
  - intros image_readable c2n s1 s2. unfold build_story.
    destruct (with_signature_images_tail image_readable (story_body record c2n) s1 s2)
      as [tail ->].
    destruct (story_body_signatures record c2n) as [before ->].
    exists before, tail. now rewrite <- app_assoc.
  - intros Hs. now rewrite Hblank.
  - intros Hs. now rewrite Hblank.
  - intros e Hs He. now rewrite (Hpass _ e Hs He).
  - intros e Hs He. now rewrite (Hpass _ e Hs He).
Qed.

Lemma handler_signature_block_witness :
  signatures
    (handler_record IsoFormat.fromisoformat IsoFormat.on IsoFormat.date_isoformat
       IsoFormat.datetime_isoformat (sample_form []))
  = [ Spacer 1 12;
      Paragraph "Signatures" h_style;
      Table
        [ [label "Prepared By (SSE SPRING SHOP)"; label EmptyString;
           label "Checked By (SSE / INSPECTION)"; label EmptyString];
          [label "Name & Signature:"; label "A. Kumar";
           label "Name & Signature:"; label "__________________"];
          [label "Date:"; label "15 Jan"; label "Date:"; label "__________________"] ]
        [mm 50; mm 70; mm 50; mm 70] None ].
Proof.
  destruct (handler_signature_block _ _ IsoFormat.fromisoformat IsoFormat.on
              IsoFormat.date_isoformat IsoFormat.datetime_isoformat (sample_form []))
    as (date_shop & date_ins & Htable & _ & _ & Hins & Hshop & _).
  rewrite Htable.
  rewrite (Hshop ValueError) by (discriminate || reflexivity).
  rewrite Hins by reflexivity.
  reflexivity.
Defined.

Lemma pyval_eqb_eq a b : pyval_eqb a b = true <-> a = b.
Proof.
  destruct a, b; simpl; split; try congruence; try discriminate.
  - intros H. apply Z.eqb_eq in H. congruence.
  - intros H. injection H as ->. apply Z.eqb_refl.
  - intros H. apply String.eqb_eq in H. congruence.
  - intros H. injection H as ->. apply String.eqb_refl.
Qed.

Lemma pyval_eqb_neq a b : pyval_eqb a b = false <-> a <> b.
Proof.
  rewrite <- pyval_eqb_eq. destruct (pyval_eqb a b); split; congruence.
Qed.

Lemma code_name_after_set code name m c :
  code_name (code_name_set code name m) c =
  if pyval_eqb c code then Some name else code_name m c.
Proof.
  induction m as [|[k v] m IH]; simpl.
  - reflexivity.
  - destruct (pyval_eqb code k) eqn:E; simpl.
    + apply pyval_eqb_eq in E. subst k. now destruct (pyval_eqb c code).
    + rewrite IH. destruct (pyval_eqb c k) eqn:E'; auto.
      apply pyval_eqb_eq in E'. subst k.
      destruct (pyval_eqb c code) eqn:E''; auto.
      apply pyval_eqb_eq in E''. subst c.
      apply pyval_eqb_neq in E. congruence.
Qed.

Lemma code_name_fold defect_types m c :
  (forall d, In d defect_types -> dict_get_default "defect_code" PNone d <> c) ->
  code_name
    (fold_left
       (fun m d => code_name_set (dict_get_default "defect_code" PNone d)
                     (dict_get_default "defect_name" PNone d) m)
       defect_types m) c
  = code_name m c.
Proof.
  revert m. induction defect_types as [|d l IH]; intros m Hno; simpl; auto.
  rewrite IH by (intros; apply Hno; now right).
  rewrite code_name_after_set.
  destruct (pyval_eqb c _) eqn:E; auto.
  apply pyval_eqb_eq in E. exfalso. apply (Hno d); [now left | congruence].
Qed.

(** X18: the code-to-name mapping built from the defect master table
    answers a code with the name of the last row that carries it, and has
    no answer for a code no row carries, whose raw code the table then
    shows. *)
Theorem defect_code_to_name_last_row before d after c2n_code :
  dict_get_default "defect_code" PNone d = c2n_code ->
  (forall d', In d' after -> dict_get_default "defect_code" PNone d' <> c2n_code) ->
  code_name (make_defect_code_to_name (before ++ d :: after)) c2n_code
    = Some (dict_get_default "defect_name" PNone d) /\
  (forall defect_types defect,
     (forall d', In d' defect_types ->
        dict_get_default "defect_code" PNone d'
        <> dict_get_default "defectType" (PStr EmptyString) defect) ->
     defect_display (make_defect_code_to_name defect_types) defect
     = dict_get_default "defectType" (PStr EmptyString) defect).
Proof.
  intros Hd Hafter. split.
  - unfold make_defect_code_to_name. rewrite fold_left_app. simpl.
    rewrite code_name_fold by exact Hafter.
    rewrite code_name_after_set, Hd.
    assert (H : pyval_eqb c2n_code c2n_code = true) by now apply pyval_eqb_eq.
    now rewrite H.
  - intros dts defect Hno. unfold defect_display, make_defect_code_to_name.
    now rewrite code_name_fold.
Qed.

Lemma defect_code_to_name_last_row_witness :
  code_name
    (make_defect_code_to_name
       [ [("defect_code", PStr "D01"); ("defect_name", PStr "Crack")];
         [("defect_code", PStr "D01"); ("defect_name", PStr "Fracture")];
         [("defect_code", PStr "D02"); ("defect_name", PStr "Corrosion")] ])
    (PStr "D01") = Some (PStr "Fracture").
Proof.
  apply (defect_code_to_name_last_row
           [ [("defect_code", PStr "D01"); ("defect_name", PStr "Crack")] ]
           [("defect_code", PStr "D01"); ("defect_name", PStr "Fracture")]
           [ [("defect_code", PStr "D02"); ("defect_name", PStr "Corrosion")] ]
           (PStr "D01") eq_refl).
  intros d' [<-|[]]. discriminate.
Defined.

(* ================================================================== *)
(** ** Properties of the Add Failure form *)
(* ================================================================== *)

Lemma strip_or_none_cases x :
  (x = EmptyString -> strip_or_none x = PNone) /\
  (x <> EmptyString ->
   strip_or_none x = PStr (strip x) /\ strip (strip x) = strip x).
Proof.
  unfold strip_or_none. split.
  - intros ->. reflexivity.
  - intros Hx. destruct x; [congruence|]. split; [reflexivity | apply strip_idem].
Qed.

Lemma new_record_optional_text (f : AddFailure.form) k x :
  In (k, x) (AddFailure.optional_texts f) ->
  dict_get k (AddFailure.new_record f) = Some (strip_or_none x).
Proof.
  unfold AddFailure.optional_texts. simpl.
  intros Hin.
  repeat (destruct Hin as [Hin|Hin]; [injection Hin as <- <-; reflexivity|]).
  destruct Hin.
Qed.

(** X19: "Add Record" inserts exactly when the coach number has a
    character that is not white space and a coach type is chosen.  The
    record then has sixteen distinct keys; its coach number is the entered
    one trimmed, hence not empty and free of surrounding white space; and
    each optional text is null when its widget was left empty and
    otherwise the entered text trimmed, so that an entry of white space
    only is stored as the empty text, not as null. *)
Theorem add_failure_record (f : AddFailure.form) :
  (AddFailure.submit f = AddFailure.Inserted (AddFailure.new_record f) <->
   strip (AddFailure.coach_no f) <> EmptyString /\
   AddFailure.coach_type f <> EmptyString) /\
  (forall r, AddFailure.submit f = AddFailure.Inserted r ->
     r = AddFailure.new_record f /\
     NoDup (dict_keys r) /\ length r = 16 /\
     (exists t, dict_get "coach_no" r = Some (PStr t) /\
                t <> EmptyString /\ strip t = t) /\
     forall k x, In (k, x) (AddFailure.optional_texts f) ->
       (x = EmptyString -> dict_get k r = Some PNone) /\
       (x <> EmptyString ->
        dict_get k r = Some (PStr (strip x)) /\ strip (strip x) = strip x)).
Proof.
  assert (Hiff : forall r, AddFailure.submit f = AddFailure.Inserted r <->
                   strip (AddFailure.coach_no f) <> EmptyString /\
                   AddFailure.coach_type f <> EmptyString /\
                   r = AddFailure.new_record f).
  { intros r. unfold AddFailure.submit. simpl.
    destruct (AddFailure.coach_no f) as [|c s] eqn:Hno; simpl.
    - split; [discriminate | intros [H _]; now elim H].
    - destruct (String.eqb (strip (String c s)) EmptyString) eqn:E; simpl.
      + apply String.eqb_eq in E. split; [discriminate | intros [H _]; now elim H].
      + apply String.eqb_neq in E.
        destruct (AddFailure.coach_type f) as [|c' s'] eqn:Hct; simpl.
        * split; [discriminate | intros (_ & H & _); now elim H].
        * split.
          -- intros H. injection H as <-. repeat split; auto. discriminate.
          -- intros (_ & _ & ->). reflexivity. }
  split.
  - rewrite Hiff. intuition.
  - intros r Hr. apply Hiff in Hr. destruct Hr as (Hno & Hct & ->).
    split; [reflexivity|]. split; [|split; [reflexivity|split]].
    + simpl. repeat constructor; simpl; intuition discriminate.
    + exists (strip (AddFailure.coach_no f)). simpl.
      repeat split; auto. apply strip_idem.
    + intros k x Hin. rewrite (new_record_optional_text f k x Hin).
      destruct (strip_or_none_cases x) as [Hempty Hfull]. split.
      * intros Hx. now rewrite Hempty.
      * intros Hx. destruct (Hfull Hx) as [-> Hs]. auto.
Qed.

Lemma add_failure_record_witness :
  AddFailure.submit
    {| AddFailure.coach_no := " 45001 "; AddFailure.coach_type := "VB";
       AddFailure.coach_code := EmptyString; AddFailure.bogie_number := " 2";
       AddFailure.schedule := EmptyString; AddFailure.receipt_date := "2024-01-15";
       AddFailure.type_of_spring := "Primary"; AddFailure.colour_of_spring := "  ";
       AddFailure.secondary_suspension_type := EmptyString;
       AddFailure.division := EmptyString; AddFailure.type_of_failure := "D01";
       AddFailure.location := EmptyString; AddFailure.location_in_bogie := EmptyString;
       AddFailure.defect_count := 1%Z; AddFailure.mfg := EmptyString;
       AddFailure.remarks := EmptyString |}
  = AddFailure.Inserted
      [ ("coach_no", PStr "45001"); ("coach_code", PNone); ("coach_type", PStr "VB");
        ("schedule", PNone); ("division", PNone); ("bogie_number", PStr "2");
        ("receipt_date", PStr "2024-01-15"); ("secondary_suspension_type", PNone);
        ("type_of_spring", PStr "Primary"); ("colour_of_spring", PStr EmptyString);
        ("type_of_failure", PStr "D01"); ("location", PNone);
        ("location_in_bogie", PNone); ("remarks", PNone); ("mfg", PNone);
        ("defect_count", PInt 1) ].
Proof.
  match goal with
  | |- AddFailure.submit ?f = _ =>
      destruct (add_failure_record f) as [Hacc _]
  end.
  apply Hacc. split; discriminate.
Defined.

(* ================================================================== *)
(** ** Properties of the edit form *)
(* ================================================================== *)

(** X20: saving the edit form with the values it was opened with writes
    back every column that held a non-empty text unchanged, except the
    coach type, which is written as "VB" when it was "VB" and as "LHB"
    whatever else it was.  A null of the table, which the data frame holds
    as NaN, is not kept: in each of the eight text columns, remarks
    included, it is written back as the text "nan".  An empty or missing
    bogie number, location, location in bogie or remark is written as
    null. *)
Theorem edit_form_unchanged_save (r : EditRecord.stored) :
  let saved := EditRecord.updated_data (EditRecord.initial_values r) in
  (forall k s, k <> "coach_type" -> s <> EmptyString ->
     dict_get k (EditRecord.as_dict r) = Some (EditRecord.Text s) ->
     dict_get k saved = Some (PStr s)) /\
  dict_get "coach_type" saved
    = Some (PStr (if EditRecord.is_vb (EditRecord.coach_type r)
                  then "VB" else "LHB")) /\
  (forall k, In k ["bogie_number"; "type_of_spring"; "colour_of_spring";
                   "secondary_suspension_type"; "type_of_failure"; "location";
                   "location_in_bogie"; "remarks"] ->
     dict_get k (EditRecord.as_dict r) = Some EditRecord.NaN ->
     dict_get k saved = Some (PStr "nan")) /\
  (forall k, In k ["bogie_number"; "location"; "location_in_bogie"; "remarks"] ->
     dict_get k (EditRecord.as_dict r) = None \/
     dict_get k (EditRecord.as_dict r) = Some (EditRecord.Text EmptyString) ->
     dict_get k saved = Some PNone).
Proof.
  destruct r as [no ct bn ts cs ss tf lo lb rm].
  intros saved. subst saved.
  unfold EditRecord.updated_data, EditRecord.initial_values, EditRecord.as_dict,
    EditRecord.text_or_none.
  cbn [EditRecord.coach_no_edit EditRecord.coach_type_edit EditRecord.bogie_number_edit
       EditRecord.type_of_spring_edit EditRecord.colour_of_spring_edit
       EditRecord.secondary_suspension_edit EditRecord.type_of_failure_edit
       EditRecord.location_edit EditRecord.location_in_bogie_edit
       EditRecord.remarks_edit EditRecord.coach_no EditRecord.coach_type
       EditRecord.bogie_number EditRecord.type_of_spring EditRecord.colour_of_spring
       EditRecord.secondary_suspension_type EditRecord.type_of_failure
       EditRecord.location EditRecord.location_in_bogie EditRecord.remarks].
  split; [|split; [reflexivity|split]].
  - intros k s Hk Hs Hget.
    assert (Hne : String.eqb s EmptyString = false) by now apply String.eqb_neq.
    match type of Hget with
    | dict_get _ ?d = _ =>
        assert (Hin : In k (dict_keys d)) by (apply dict_get_In; congruence)
    end.
    destruct bn as [bn|], lo as [lo|], lb as [lb|], rm as [rm|]; simpl in Hin;
      repeat (destruct Hin as [<-|Hin];
              [ simpl in Hget; try congruence; injection Hget as ->;
                simpl; rewrite ?Hne; simpl; rewrite ?Hne; simpl;
                rewrite ?Hne; reflexivity |]);
      destruct Hin.
  - intros k Hk Hget. simpl in Hk.
    destruct bn as [bn|], lo as [lo|], lb as [lb|], rm as [rm|];
      repeat (destruct Hk as [<-|Hk];
              [simpl in Hget |- *; try discriminate Hget;
               injection Hget as ->; reflexivity|]);
      destruct Hk.
  - intros k Hk Hget. simpl in Hk.
    destruct bn as [bn|], lo as [lo|], lb as [lb|], rm as [rm|];
      repeat (destruct Hk as [<-|Hk];
              [simpl in Hget |- *; destruct Hget as [Hget|Hget];
               try discriminate Hget; try (injection Hget as ->); reflexivity|]);
      destruct Hk.
Qed.

Lemma edit_form_unchanged_save_witness :
  let saved :=
    EditRecord.updated_data
      (EditRecord.initial_values
         {| EditRecord.coach_no := "45001";
            EditRecord.coach_type := EditRecord.Text "EMU";
            EditRecord.bogie_number := Some EditRecord.NaN;
            EditRecord.type_of_spring := EditRecord.Text "Primary";
            EditRecord.colour_of_spring := EditRecord.NaN;
            EditRecord.secondary_suspension_type := EditRecord.Text "Air Spring";
            EditRecord.type_of_failure := EditRecord.Text "D01";
            EditRecord.location := None; EditRecord.location_in_bogie := None;
            EditRecord.remarks := Some EditRecord.NaN |}) in
  dict_get "bogie_number" saved = Some (PStr "nan") /\
  dict_get "remarks" saved = Some (PStr "nan") /\
  dict_get "type_of_spring" saved = Some (PStr "Primary") /\
  dict_get "location" saved = Some PNone.
Proof.
  intros saved. subst saved.
  match goal with
  | |- dict_get _ (EditRecord.updated_data (EditRecord.initial_values ?r)) = _ /\ _ =>
      destruct (edit_form_unchanged_save r) as (Htext & _ & Hnan & Hempty)
  end.
  split; [|split; [|split]].
  - apply Hnan; [now left | reflexivity].
  - apply Hnan; [simpl; tauto | reflexivity].
  - apply Htext; [discriminate | discriminate | reflexivity].
  - apply Hempty; [simpl; tauto | now left].
Defined.

(* ================================================================== *)
(** ** Properties of the View Failures filters *)
(* ================================================================== *)

Lemma filter_all {A : Type} (l : list A) : filter (fun _ => true) l = l.
Proof. induction l as [|x l IH]; simpl; congruence. Qed.

Lemma filter_twice {A : Type} (p q : A -> bool) (l : list A) :
  filter q (filter p l) = filter (fun x => p x && q x) l.
Proof.
  induction l as [|x l IH]; simpl; auto.
  destruct (p x); simpl; [destruct (q x)|]; congruence.
Qed.

Lemma filter_isin_passes {row : Type} (col : row -> pyval) selected df :
  filter_isin col selected df = filter (passes col selected) df.
Proof.
  unfold filter_isin, passes. destruct selected; auto.
  symmetry. apply filter_all.
Qed.

(** X21: the four filters of View Failures act as one test: a row is
    shown exactly when, for every filter with a selection, its cell is among
    the selected values.  The rows shown keep their order, are never more
    than the rows of the table, and are all of them when nothing is
    selected. *)
Theorem filtered_df_conjunction {row : Type}
  (coach_no_of type_of_failure_of type_of_spring_of coach_type_of : row -> pyval)
  (coach_filter defect_filter spring_filter coach_type_filter : list pyval)
  (df : list row) :
  filtered_df coach_no_of type_of_failure_of type_of_spring_of coach_type_of
    coach_filter defect_filter spring_filter coach_type_filter df
  = filter (fun r => passes coach_no_of coach_filter r
                     && passes type_of_failure_of defect_filter r
                     && passes type_of_spring_of spring_filter r
                     && passes coach_type_of coach_type_filter r) df /\
  length (filtered_df coach_no_of type_of_failure_of type_of_spring_of coach_type_of
            coach_filter defect_filter spring_filter coach_type_filter df)
    <= length df /\
  filtered_df coach_no_of type_of_failure_of type_of_spring_of coach_type_of
    [] [] [] [] df = df.
Proof.
  assert (H : forall cf dfl sf ctf,
            filtered_df coach_no_of type_of_failure_of type_of_spring_of coach_type_of
              cf dfl sf ctf df
            = filter (fun r => passes coach_no_of cf r
                               && passes type_of_failure_of dfl r
                               && passes type_of_spring_of sf r
                               && passes coach_type_of ctf r) df).
  { intros. unfold filtered_df.
    rewrite !filter_isin_passes, !filter_twice.
    apply filter_ext. intros r. now rewrite !andb_assoc. }
  split; [apply H|]. split.
  - rewrite H. apply filter_length_le.
  - reflexivity.
Qed.

(* ================================================================== *)
(** ** Properties of the drop-down options *)
(* ================================================================== *)

Lemma insert_distinct_In x l y : In y (insert_distinct x l) <-> y = x \/ In y l.
Proof.
  induction l as [|z l IH]; simpl.
  - intuition.
  - destruct (OrdersEx.String_as_OT.compare_spec x z) as [E|E|E]; simpl.
    + change (x = z) in E. subst z. intuition.
    + intuition.
    + rewrite IH. intuition.
Qed.

Lemma insert_distinct_sorted x l :
  StronglySorted str_lt l -> StronglySorted str_lt (insert_distinct x l).
Proof.
  induction l as [|z l IH]; intros Hs; simpl.
  - repeat constructor.
  - inversion Hs as [|? ? Hs' Hall]; subst.
    destruct (OrdersEx.String_as_OT.compare_spec x z) as [E|E|E].
    + exact Hs.
    + constructor; auto. constructor; auto.
      eapply Forall_impl; [|exact Hall].
      intros a Ha. unfold str_lt in *.
      eapply (@StrictOrder_Transitive _ _ OrdersEx.String_as_OT.lt_strorder); eauto.
    + constructor; [now apply IH|].
      apply Forall_forall. intros a Ha. apply insert_distinct_In in Ha.
      destruct Ha as [->|Ha]; auto.
      rewrite Forall_forall in Hall. now apply Hall.
Qed.

Lemma sorted_set_sorted xs : StronglySorted str_lt (sorted_set xs).
Proof.
  induction xs as [|x xs IH]; simpl; [constructor | now apply insert_distinct_sorted].
Qed.

Lemma sorted_set_In xs y : In y (sorted_set xs) <-> In y xs.
Proof.
  induction xs as [|x xs IH]; simpl; [tauto|].
  rewrite insert_distinct_In, IH. intuition.
Qed.

Lemma strongly_sorted_NoDup l : StronglySorted str_lt l -> NoDup l.
Proof.
  induction 1 as [|a l Hs IH Hall]; constructor; auto.
  intros Hin. rewrite Forall_forall in Hall. specialize (Hall a Hin).
  exact (@StrictOrder_Irreflexive _ _ OrdersEx.String_as_OT.lt_strorder a Hall).
Qed.

(** X22: the options of a combobox start with the empty choice and go on
    in strictly increasing order of text, so no option occurs twice; they
    are the empty choice and exactly the non-empty texts offered. *)
Theorem options_list_sorted_distinct options :
  hd_error (options_list options) = Some EmptyString /\
  StronglySorted str_lt (options_list options) /\
  NoDup (options_list options) /\
  (forall x, In x (options_list options) <-> x = EmptyString \/ In x options).
Proof.
  assert (Hs : StronglySorted str_lt (options_list options)).
  { unfold options_list. constructor; [apply sorted_set_sorted|].
    apply Forall_forall. intros a Ha. apply sorted_set_In, filter_In in Ha.
    destruct Ha as [_ Ha]. destruct a; [discriminate Ha | reflexivity]. }
  split; [reflexivity|]. split; [exact Hs|]. split; [now apply strongly_sorted_NoDup|].
  intros x. unfold options_list. simpl. rewrite sorted_set_In, filter_In.
  split.
  - intros [<-|[Hin _]]; auto.
  - intros [->|Hin]; auto.
    destruct x; auto.
Qed.

(* ================================================================== *)
(** ** More on [normalize_sig_date] and on finalised checklists *)
(* ================================================================== *)

(** X23: [normalize_sig_date] answers [None] for an absent or blank text
    and for nothing else; and a text the parser rejects comes back in a
    form that normalising again leaves alone. *)
Theorem normalize_sig_date_blank_and_stable (datetime date : Type)
  (fromisoformat : string -> result datetime) (to_date : datetime -> date)
  (date_isoformat : date -> string) (datetime_isoformat : datetime -> string)
  (text : option string) :
  (normalize_sig_date fromisoformat to_date date_isoformat datetime_isoformat text = None
   <-> text = None \/ exists s, text = Some s /\ strip s = EmptyString) /\
  (forall s e, text = Some s -> strip s <> EmptyString ->
     fromisoformat (strip s) = Raise e ->
     normalize_sig_date fromisoformat to_date date_isoformat datetime_isoformat
       (normalize_sig_date fromisoformat to_date date_isoformat datetime_isoformat text)
     = normalize_sig_date fromisoformat to_date date_isoformat datetime_isoformat text).
Proof.
  assert (Hpass : forall s e, strip s <> EmptyString ->
            fromisoformat (strip s) = Raise e ->
            normalize_sig_date fromisoformat to_date date_isoformat
              datetime_isoformat (Some s) = Some (strip s)).
  { intros s e Hs He. unfold normalize_sig_date.
    apply String.eqb_neq in Hs. rewrite Hs, He. now destruct (Nat.eqb _ 10). }
  split.
  - destruct text as [s|]; [|split; auto].
    unfold normalize_sig_date.
    destruct (String.eqb (strip s) EmptyString) eqn:E.
    + apply String.eqb_eq in E. split; eauto.
    + apply String.eqb_neq in E. split.
      * destruct (Nat.eqb _ 10); destruct (fromisoformat (strip s)); discriminate.
      * intros [H|(s' & H & Hs')]; [discriminate|].
        injection H as <-. contradiction.
  - intros s e -> Hs He. rewrite (Hpass s e Hs He).
    rewrite (Hpass (strip s) e); rewrite strip_idem; auto.
Qed.

Lemma normalize_sig_date_blank_and_stable_witness :
  IsoFormat.normalize (IsoFormat.normalize (Some " 15 Jan "))
  = IsoFormat.normalize (Some " 15 Jan ").
Proof.
  destruct (normalize_sig_date_blank_and_stable _ _ IsoFormat.fromisoformat IsoFormat.on
              IsoFormat.date_isoformat IsoFormat.datetime_isoformat (Some " 15 Jan "))
    as [_ H].
  apply (H " 15 Jan " ValueError); [reflexivity | discriminate | reflexivity].
Defined.

(** X24: a position cell left blank in the editor is printed as the
    default status: in the checklist table drawn from the finalised rows it
    shows the default of [clean_inspections], for every position whose key
    is not "activity", "remarks" or "activity_id". *)
Theorem blank_cell_printed_as_default
  title (df : list (dict pyval)) sc default_val color_hex i j r stype v :
  nth_error df i = Some r ->
  NoDup (dict_keys r) ->
  nth_error (dict_keys sc) j = Some stype ->
  in_list (position_key stype) kept_fields = false ->
  dict_get (position_key stype) r = Some v ->
  is_blank v = true ->
  exists rows widths row,
    render_inspection_table title (clean_inspections (Some df) default_val) sc color_hex =
      [Paragraph title h_style; Table rows widths (Some color_hex); Spacer 1 8] /\
    nth_error rows (S i) = Some row /\
    nth_error row (S j) = Some (_para (PStr default_val) small).
Proof.
  intros Hrow Hnd Hpos Hkept Hget Hblank.
  destruct (clean_inspections_cells default_val df i Hrow Hnd) as (r' & Hr' & _ & Hcells).
  specialize (Hcells _ _ Hget). rewrite Hkept, Hblank in Hcells.
  rewrite render_inspection_table_rows.
  eexists. eexists. eexists. split; [reflexivity|]. split.
  - simpl. apply map_nth_error. exact Hr'.
  - simpl. rewrite nth_error_app1.
    + erewrite map_nth_error by exact Hpos.
      unfold dict_get_default. now rewrite Hcells.
    + rewrite length_map. apply nth_error_Some. congruence.
Qed.

Lemma blank_cell_printed_as_default_witness :
  exists rows widths row,
    render_inspection_table "Visual Inspection - Bogie 1"
      (clean_inspections (Some [edited_row]) "Satisfactory")
      [("Primary", 4%Z); (SO, 2%Z)] "#2e7d32" =
      [Paragraph "Visual Inspection - Bogie 1" h_style;
       Table rows widths (Some "#2e7d32"); Spacer 1 8] /\
    nth_error rows 1 = Some row /\
    nth_error row 2 = Some (label "Satisfactory").
Proof.
  apply (blank_cell_printed_as_default "Visual Inspection - Bogie 1" [edited_row]
           [("Primary", 4%Z); (SO, 2%Z)] "Satisfactory" "#2e7d32" 0 1 edited_row
           SO PNone); try reflexivity.
  simpl. repeat constructor; simpl; intuition discriminate.
Defined.

(* ================================================================== *)
(** ** Properties of [get_supabase_credentials] *)
(* ================================================================== *)

Section CredentialsFacts.
Variable value : Type.
Variable value_truthy : value -> bool.
Variable table : value -> option (dict value).

Lemma both_set_some url key u k :
  both_set value_truthy url key = Some (u, k) <->
  url = Some u /\ key = Some k /\
  value_truthy u = true /\ value_truthy k = true.
Proof.
  unfold both_set. destruct url as [u'|], key as [k'|];
    try (split; [discriminate | intros (H1 & H2 & _); discriminate]).
  destruct (value_truthy u') eqn:Eu, (value_truthy k') eqn:Ek; simpl; split;
    try discriminate;
    try (intros (H1 & H2 & H3 & H4); injection H1 as <-; injection H2 as <-;
         congruence).
  intros H. injection H as <- <-. auto.
Qed.

Lemma credentials_in_found secrets u k :
  credentials_in value_truthy table secrets = Found u k ->
  value_truthy u = true /\ value_truthy k = true.
Proof.
  unfold credentials_in.
  destruct (both_set value_truthy (dict_get "SUPABASE_URL" secrets)
              (dict_get "SUPABASE_KEY" secrets)) as [[u' k']|] eqn:E.
  - intros H. injection H as <- <-. apply both_set_some in E. tauto.
  - destruct (supabase_get table secrets "url") as [url|]; [|discriminate].
    destruct (supabase_get table secrets "anon_key") as [key|]; [|discriminate].
    destruct (both_set value_truthy url key) as [[u' k']|] eqn:E';
      [|discriminate].
    intros H. injection H as <- <-. apply both_set_some in E'. tauto.
Qed.

Lemma credentials_in_not_a_table secrets :
  credentials_in value_truthy table secrets = NotATable <->
  both_set value_truthy (dict_get "SUPABASE_URL" secrets)
    (dict_get "SUPABASE_KEY" secrets) = None /\
  exists v, dict_get "supabase" secrets = Some v /\ table v = None.
Proof.
  unfold credentials_in, supabase_get.
  destruct (both_set value_truthy (dict_get "SUPABASE_URL" secrets)
              (dict_get "SUPABASE_KEY" secrets)) as [[u' k']|] eqn:E.
  - split; [discriminate | intros [H _]; discriminate].
  - destruct (dict_get "supabase" secrets) as [v|].
    + destruct (table v) as [t|] eqn:Et.
      * destruct (both_set value_truthy (dict_get "url" t)
                    (dict_get "anon_key" t)) as [[u' k']|];
          (split; [discriminate | intros (_ & v' & Hv & Hn); congruence]).
      * split; eauto.
    + destruct (both_set value_truthy None None) as [[u' k']|];
        (split; [discriminate | intros (_ & v' & Hv & _); discriminate]).
Qed.

End CredentialsFacts.

(** X25: credentials are looked up in a fixed order: the top-level keys of
    the application secrets, their [supabase] table, then the same two
    places in the secrets file; the first place holding both a true URL and
    a true key wins, and nothing that goes wrong with the application
    secrets stops the call.  When they give nothing the call goes on to
    the file, and there only a missing file is passed over: without a TOML
    module it raises ModuleNotFoundError, a file that cannot be opened or
    decoded raises what the loading raised, and a [supabase] entry of the
    file that is not a table raises AttributeError when the top-level pair
    is incomplete.  The "credentials not found" ValueError is raised
    exactly when the application secrets give nothing, the TOML module is
    there, and the file is missing or holds tables only and no complete
    pair. *)
Theorem get_supabase_credentials_order (value : Type)
    (value_truthy : value -> bool) (table : value -> option (dict value))
    (st_secrets : option (dict value)) (toml_importable : bool)
    (file : secrets_file value) :
  let call := get_supabase_credentials value_truthy table in
  let nothing_in o :=
    match o with
    | Some secrets =>
        forall u k, credentials_in value_truthy table secrets <> Found u k
    | None => True
    end in
  (forall u k, call st_secrets toml_importable file = Return u k ->
     value_truthy u = true /\ value_truthy k = true) /\
  (forall secrets u k, st_secrets = Some secrets ->
     both_set value_truthy (dict_get "SUPABASE_URL" secrets)
       (dict_get "SUPABASE_KEY" secrets) = Some (u, k) ->
     call st_secrets toml_importable file = Return u k) /\
  (forall secrets u k, st_secrets = Some secrets ->
     credentials_in value_truthy table secrets = Found u k ->
     call st_secrets toml_importable file = Return u k) /\
  (nothing_in st_secrets ->
     call st_secrets toml_importable file = call None toml_importable file) /\
  (toml_importable = false ->
     call None toml_importable file = Raises ModuleNotFoundError) /\
  (toml_importable = true ->
     (file = LoadRaises ->
      call None toml_importable file = Raises LoadError) /\
     (forall secrets u k, file = Loaded secrets ->
        credentials_in value_truthy table secrets = Found u k ->
        call None toml_importable file = Return u k) /\
     (forall secrets v, file = Loaded secrets ->
        both_set value_truthy (dict_get "SUPABASE_URL" secrets)
          (dict_get "SUPABASE_KEY" secrets) = None ->
        dict_get "supabase" secrets = Some v -> table v = None ->
        call None toml_importable file = Raises AttributeError)) /\
  (call st_secrets toml_importable file = Raises CredentialsNotFound <->
     nothing_in st_secrets /\ toml_importable = true /\
     (file = FileNotFound \/
      exists secrets, file = Loaded secrets /\
        credentials_in value_truthy table secrets = Incomplete)).
Proof.
  intros call nothing_in. subst call nothing_in. cbv beta.
  unfold get_supabase_credentials.
  split; [|split; [|split; [|split; [|split; [|split]]]]].
  - intros u k.
    destruct st_secrets as [s|];
      [destruct (credentials_in value_truthy table s) as [u' k'| |] eqn:E|].
    1: { intros H. injection H as <- <-. eapply credentials_in_found; eauto. }
    all: destruct toml_importable; simpl; try discriminate;
      destruct file as [| |s']; try discriminate;
      destruct (credentials_in value_truthy table s') as [u' k'| |] eqn:E';
      try discriminate;
      intros H; injection H as <- <-; eapply credentials_in_found; eauto.
  - intros s u k -> Hb. unfold credentials_in. now rewrite Hb.
  - intros s u k -> Hf. now rewrite Hf.
  - destruct st_secrets as [s|]; [|reflexivity].
    intros Hn. destruct (credentials_in value_truthy table s) as [u k| |] eqn:E;
      [exfalso; eapply Hn; reflexivity | reflexivity | reflexivity].
  - intros ->. reflexivity.
  - intros ->. simpl. split; [|split].
    + intros ->. reflexivity.
    + intros s u k -> Hf. now rewrite Hf.
    + intros s v -> Hb Hv Ht.
      assert (E : credentials_in value_truthy table s = NotATable)
        by (apply credentials_in_not_a_table; eauto).
      now rewrite E.
  - assert (Hfile :
      (if negb toml_importable then Raises ModuleNotFoundError
       else match file with
            | FileNotFound => Raises CredentialsNotFound
            | LoadRaises => Raises LoadError
            | Loaded secrets =>
                match credentials_in value_truthy table secrets with
                | Found u k => Return u k
                | Incomplete => Raises CredentialsNotFound
                | NotATable => Raises AttributeError
                end
            end) = Raises CredentialsNotFound <->
      toml_importable = true /\
      (file = FileNotFound \/
       exists secrets, file = Loaded secrets /\
         credentials_in value_truthy table secrets = Incomplete)).
    { destruct toml_importable; simpl;
        [|split; [discriminate | intros (H & _); discriminate]].
      destruct file as [| |s'].
      - split; auto.
      - split; [discriminate | intros (_ & [H|(s2 & H & _)]); discriminate].
      - destruct (credentials_in value_truthy table s') as [u' k'| |] eqn:E'.
        + split; [discriminate|].
          intros (_ & [H|(s2 & H & H2)]); [discriminate|].
          injection H as <-. congruence.
        + split; [intros _; split; eauto | reflexivity].
        + split; [discriminate|].
          intros (_ & [H|(s2 & H & H2)]); [discriminate|].
          injection H as <-. congruence. }
    destruct st_secrets as [s|];
      [destruct (credentials_in value_truthy table s) as [u k| |] eqn:E|].
    + split; [discriminate|]. intros (Hn & _). exfalso. eapply Hn; reflexivity.
    + rewrite Hfile. split; [intros H; split; [intros; discriminate | exact H]|tauto].
    + rewrite Hfile. split; [intros H; split; [intros; discriminate | exact H]|tauto].
    + rewrite Hfile. tauto.
Qed.

Lemma get_supabase_credentials_order_witness :
  get_supabase_credentials toml_truthy toml_table (Some table_secrets) false
    LoadRaises
  = Return (TomlStr "https://b") (TomlStr "kb") /\
  get_supabase_credentials toml_truthy toml_table (Some string_secrets) true
    (Loaded string_secrets)
  = Raises AttributeError.
Proof.
  split.
  - destruct (get_supabase_credentials_order toml_value toml_truthy toml_table
                (Some table_secrets) false LoadRaises) as (_ & _ & H & _).
    apply (H table_secrets); reflexivity.
  - destruct (get_supabase_credentials_order toml_value toml_truthy toml_table
                (Some string_secrets) true (Loaded string_secrets))
      as (_ & _ & _ & Hst & _ & Hfile & _).
    cbv zeta in Hst. rewrite Hst; [|intros u k; discriminate].
    destruct (Hfile eq_refl) as (_ & _ & Hattr).
    apply (Hattr string_secrets (TomlStr "https://b")); reflexivity.
Defined.

(* ================================================================== *)
(** ** Properties of the bogie corrections *)
(* ================================================================== *)

Lemma to_bogie2_correct_bogie row c :
  to_bogie2 (correct_bogie row c) =
  if truthy (PStr c) then String.eqb (strip c) "2" else to_bogie2 row.
Proof.
  unfold correct_bogie. destruct (truthy (PStr c)); reflexivity.
Qed.

Lemma apply_bogie_corrections_length rows corrected :
  length (apply_bogie_corrections rows corrected) = length rows.
Proof.
  revert corrected. induction rows as [|r rows IH]; intros [|c cs]; simpl; auto.
Qed.

Lemma apply_bogie_corrections_nth rows corrected i row c :
  nth_error rows i = Some row -> nth_error corrected i = Some c ->
  nth_error (apply_bogie_corrections rows corrected) i = Some (correct_bogie row c).
Proof.
  revert corrected i. induction rows as [|r rows IH]; intros [|c' cs] [|i]; simpl;
    try discriminate.
  - intros H1 H2. injection H1 as <-. injection H2 as <-. reflexivity.
  - apply IH.
Qed.

(** X26: a bogie number corrected on the report page decides the bogie of
    that defect in the report: the row goes to bogie 2 exactly when the
    correction, trimmed, is "2", whatever the stored number was; a row
    whose correction field was left empty keeps the rule of its stored
    number; and the corrections neither add nor drop a defect. *)
Theorem corrected_bogie_decides rows corrected :
  let corrected_rows := apply_bogie_corrections rows corrected in
  length (fst (partition_defects corrected_rows))
    + length (snd (partition_defects corrected_rows)) = length rows /\
  forall i row c,
    nth_error rows i = Some row -> nth_error corrected i = Some c ->
    exists row',
      nth_error corrected_rows i = Some row' /\
      make_defect row' = make_defect row /\
      (c <> EmptyString -> to_bogie2 row' = String.eqb (strip c) "2") /\
      (c = EmptyString -> to_bogie2 row' = to_bogie2 row).
Proof.
  intros corrected_rows. split.
  - unfold partition_defects. rewrite partition_fold. simpl.
    rewrite !length_map, filter_split_length.
    apply apply_bogie_corrections_length.
  - intros i row c Hrow Hc. exists (correct_bogie row c).
    split; [now apply apply_bogie_corrections_nth|].
    split; [|split].
    + unfold correct_bogie. destruct (truthy (PStr c)); reflexivity.
    + intros Hne. rewrite to_bogie2_correct_bogie.
      destruct c; [congruence | reflexivity].
    + intros ->. reflexivity.
Qed.

Lemma corrected_bogie_decides_witness :
  exists row',
    nth_error (apply_bogie_corrections three_failures [EmptyString; " 2"; EmptyString]) 1
      = Some row' /\
    to_bogie2 row' = true.
Proof.
  destruct (corrected_bogie_decides three_failures [EmptyString; " 2"; EmptyString])
    as [_ H].
  destruct (H 1 (failure (Some (PStr EmptyString))) " 2" eq_refl eq_refl)
    as (row' & Hnth & _ & Hc & _).
  exists row'. split; [exact Hnth|].
  rewrite Hc by discriminate. reflexivity.
Defined.
